(** * danCryptoMentorApp: a shallow embedding of [crypto_mentor_app.py]

    The development follows the layout of the Python module: the decision
    engine [mentor_decision], the indicator source [mock_indicators], the
    two HTTP helpers [get_price] and [get_top_movers], and the chart
    pipeline [detect_peaks_troughs].  Library calls (random, requests,
    cv2, numpy) are modelled by their documented behaviour; everything
    defined in the module itself is transcribed statement by statement.

    Part I holds the definitions, Part II the properties of the
    specification, Part III further properties read off the code. *)

From Stdlib Require Import ZArith QArith Qfield Lqa List String Ascii Lia Sorting.Sorted.
From stdpp Require Import base option gmap strings.
Import ListNotations.

Set Warnings "-register-all".

(* ===================================================================== *)
(** * Part I: the program                                                 *)
(* ===================================================================== *)

(** ** Python exceptions

    A call either returns a value or raises; [try_except] is the bare
    [try: ... except: ...] of the source, which catches every exception. *)

Module Py.

Inductive exn : Type :=
| KeyError
| TypeError
| IndexError
| ValueError
| RequestException.

Inductive result (A : Type) : Type :=
| Ok (a : A)
| Raise (e : exn).
Arguments Ok {A} a.
Arguments Raise {A} e.

Definition bind {A B : Type} (r : result A) (k : A -> result B) : result B :=
  match r with
  | Ok a => k a
  | Raise e => Raise e
  end.

Definition try_except {A : Type} (body : result A) (handler : A) : A :=
  match body with
  | Ok a => a
  | Raise _ => handler
  end.

Fixpoint for_each {A B : Type} (f : A -> result B) (l : list A) : result (list B) :=
  match l with
  | [] => Ok []
  | x :: l' => bind (f x) (fun y => bind (for_each f l') (fun ys => Ok (y :: ys)))
  end.

(** [l[i]] on a list: a negative index counts from the end, an index out
    of range raises IndexError. *)
Definition list_getitem {A : Type} (l : list A) (i : Z) : result A :=
  let n := Z.of_nat (List.length l) in
  let j := if (i <? 0)%Z then (i + n)%Z else i in
  if ((j <? 0) || (n <=? j))%Z then Raise IndexError
  else match nth_error l (Z.to_nat j) with
       | Some x => Ok x
       | None => Raise IndexError
       end.

(** [range(lo, hi)]: empty when [hi <= lo]. *)
Definition range (lo hi : Z) : list Z :=
  map (fun k => (lo + Z.of_nat k)%Z) (seq 0 (Z.to_nat (hi - lo))).

(** [for i in l: s = body(s, i)], stopping at the first exception. *)
Fixpoint for_loop {S : Type} (body : S -> Z -> result S) (l : list Z) (s : S) : result S :=
  match l with
  | [] => Ok s
  | i :: l' => bind (body s i) (for_loop body l')
  end.

End Py.

Notation "'try!' x <- e ; k" := (Py.bind e (fun x => k))
  (at level 10, x name, e at level 100, k at level 200).

(** ** Decision engine (source lines 77-87) *)

Module Decision.

Open Scope string_scope.
Open Scope Z_scope.

Definition LONG : string := "📈 LONG".
Definition SHORT : string := "📉 SHORT".
Definition WAIT : string := "⏳ WAIT".

Definition Bullish : string := "Bullish".
Definition Bearish : string := "Bearish".
Definition NearUpperBand : string := "Price near Upper Band".
Definition NearLowerBand : string := "Price near Lower Band".

(** [rsi] is a Python int; [macd] and [bollinger] are Python strings
    compared with [==]. The result is the pair (signal, explanation). *)
Definition mentor_decision (rsi : Z) (macd bollinger : string) : string * string :=
  if (rsi <? 30) && String.eqb macd "Bullish" then
    (LONG, "Strong upside signal based on RSI < 30 and bullish MACD.")
  else if (rsi >? 70) && String.eqb macd "Bearish" then
    (SHORT, "RSI > 70 with bearish MACD suggests downside.")
  else if String.eqb bollinger "Price near Upper Band" && String.eqb macd "Bearish" then
    (SHORT, "Near upper Bollinger Band with bearish MACD.")
  else if String.eqb bollinger "Price near Lower Band" && String.eqb macd "Bullish" then
    (LONG, "Near lower Bollinger Band with bullish MACD.")
  else
    (WAIT, "Conditions not favorable for entry.").

End Decision.

(** ** Indicator source (source lines 53-58)

    [random.randint] and [random.choice] both draw through the generator's
    [_randbelow n], which returns an integer in [0, n) and advances the
    generator. The generator is a parameter; a computation threads its
    state and may raise. *)

Module Indicators.

Open Scope string_scope.
Open Scope Z_scope.

Record indicators : Type := mk_indicators {
  RSI : Z;
  MACD : string;
  Bollinger : string
}.

Section Random.

Variable rng : Type.
Variable randbelow : Z -> rng -> Z * rng.

Definition M (A : Type) : Type := rng -> Py.result (A * rng).

Definition ret {A : Type} (a : A) : M A := fun s => Py.Ok (a, s).

Definition mbind {A B : Type} (m : M A) (k : A -> M B) : M B :=
  fun s => match m s with
           | Py.Ok (a, s') => k a s'
           | Py.Raise e => Py.Raise e
           end.

Definition raise {A : Type} (e : Py.exn) : M A := fun _ => Py.Raise e.

Definition draw (n : Z) : M Z := fun s => Py.Ok (randbelow n s).

(** [randrange(start, stop)]: [start + _randbelow(width)] when
    [width > 0], ValueError otherwise. *)
Definition randrange (start stop : Z) : M Z :=
  let width := stop - start in
  if width >? 0 then mbind (draw width) (fun r => ret (start + r))
  else raise Py.ValueError.

Definition randint (a b : Z) : M Z := randrange a (b + 1).

(** [choice(seq)]: IndexError on an empty sequence, otherwise
    [seq[_randbelow(len(seq))]]. *)
Definition choice (seq : list string) : M string :=
  if (Z.of_nat (List.length seq) =? 0) then raise Py.IndexError
  else mbind (draw (Z.of_nat (List.length seq)))
             (fun r => fun s => Py.bind (Py.list_getitem seq r) (fun x => ret x s)).

(** The dict literal evaluates its three values in order. *)
Definition mock_indicators : M indicators :=
  mbind (randint 20 80) (fun rsi =>
  mbind (choice ["Bullish"; "Bearish"]) (fun macd =>
  mbind (choice ["Price near Upper Band"; "Price near Lower Band"]) (fun boll =>
  ret (mk_indicators rsi macd boll)))).

End Random.

(** A concrete generator used to run the model: the state is a counter
    and [_randbelow n] is the counter reduced modulo [n]. *)
Definition counter_randbelow (n : Z) (s : Z) : Z * Z := (s mod n, s + 1).

End Indicators.

(** ** JSON values and the two HTTP helpers (source lines 30-50)

    [response.json()] yields Python values built from dicts, lists,
    strings, numbers, booleans and [None]. A dict is a finite map keyed by
    strings. [None] is [JNull], so the result of [get_price] is a [json]. *)

Module Http.

Open Scope string_scope.

Inductive json : Type :=
| JNull
| JBool (b : bool)
| JNum (q : Q)
| JStr (s : string)
| JArr (l : list json)
| JObj (m : gmap string json).

(** [obj[key]] for a string key: a dict looks the key up (KeyError when
    absent); a list or a string rejects a string index and the other
    values are not subscriptable (TypeError). *)
Definition getitem (obj : json) (key : string) : Py.result json :=
  match obj with
  | JObj m => match m !! key with
              | Some v => Py.Ok v
              | None => Py.Raise Py.KeyError
              end
  | _ => Py.Raise Py.TypeError
  end.

(** [data[:5]] and [data[-5:]] on lists. *)
Definition first5 {A : Type} (l : list A) : list A := firstn 5 l.
Definition last5 {A : Type} (l : list A) : list A := skipn (List.length l - 5) l.

(** The items a comprehension [for coin in data[slice]] visits: a list is
    sliced and iterated; a string is sliced and iterated character by
    character (a character is one byte of the string here); a dict does not
    accept a slice and the other values are not subscriptable. *)
Definition iter_slice (slice : forall A : Type, list A -> list A) (data : json)
  : Py.result (list json) :=
  match data with
  | JArr l => Py.Ok (slice json l)
  | JStr s => Py.Ok (map (fun c => JStr (String c EmptyString))
                         (slice ascii (list_ascii_of_string s)))
  | _ => Py.Raise Py.TypeError
  end.

(** What [requests.get(url)] hands back: a status code and the outcome of
    [response.json()] on the body (ValueError when the body is not JSON). *)
Record response : Type := mk_response {
  status_code : Z;
  response_json : Py.result json
}.

Section Network.

(** [requests.get]: returns a response or raises (connection error,
    timeout, ...). *)
Variable requests_get : string -> Py.result response.

Definition price_url (coin_id : string) : string :=
  "https://api.coingecko.com/api/v3/simple/price?ids=" ++ coin_id ++ "&vs_currencies=usdt".

Definition get_price (coin_id : string) : json :=
  let url := price_url coin_id in
  Py.try_except
    (try! response <- requests_get url;
     try! data <- response_json response;
     try! entry <- getitem data coin_id;
     getitem entry "usdt")
    JNull.

Definition movers_url : string :=
  "https://api.coingecko.com/api/v3/coins/markets?vs_currency=usdt&order=percent_change_24h_desc&per_page=10&page=1".

Definition mover_tuple (coin : json) : Py.result (json * json * json) :=
  try! name <- getitem coin "name";
  try! symbol <- getitem coin "symbol";
  try! change <- getitem coin "price_change_percentage_24h";
  Py.Ok (name, symbol, change).

(** The [st.cache_data] decorator only memoises the result. *)
Definition get_top_movers : list (json * json * json) * list (json * json * json) :=
  let url := movers_url in
  Py.try_except
    (try! response <- requests_get url;
     try! data <- response_json response;
     try! head <- iter_slice (@first5) data;
     try! top_gainers <- Py.for_each mover_tuple head;
     try! tail <- iter_slice (@last5) data;
     try! top_losers <- Py.for_each mover_tuple tail;
     Py.Ok (top_gainers, top_losers))
    ([], []).

End Network.

End Http.

(** ** Chart pipeline (source lines 61-74)

    Numbers are exact rationals: [np.sum] yields unsigned 64-bit integers
    and [np.convolve] works on their conversion, with the kernel
    [np.ones(10)/10]; rounding of the floating-point arithmetic is not
    modelled. The comparisons of the loop are those of the rationals,
    which is how finite floating-point values compare. *)

Module Chart.

Open Scope Q_scope.

Definition Qltb (x y : Q) : bool := (Qnum x * QDen y <? Qnum y * QDen x)%Z.
Definition Qgtb (x y : Q) : bool := Qltb y x.

(** *** numpy *)

(** [np.sum(edges, axis=1)] on a uint8 array: one unsigned 64-bit sum per
    row. *)
Definition np_sum_rows (edges : list (list Z)) : list Z :=
  map (fun row => (fold_left Z.add row 0 mod 2 ^ 64)%Z) edges.

(** [np.ones(n) / d] *)
Definition np_ones_div (n : nat) (d : Q) : list Q :=
  map (fun x => x / d) (repeat 1 n).

(** The inner product of numpy's correlate: [n] terms read from [a]
    starting at [ia] and from [v] starting at [iv]. *)
Definition dot (a : list Q) (ia : nat) (v : list Q) (iv : nat) (n : nat) : Q :=
  fold_left (fun tmp k => tmp + nth (ia + k) a 0 * nth (iv + k) v 0) (seq 0 n) 0.

(** numpy's correlate in mode 'same', for [length v <= length a]: the
    output has [length a] entries, computed in three runs. The first
    [n_left] entries use a window of [v] that grows from its tail, the
    middle entries use all of [v], the last [n_right] entries use a
    window that shrinks from its head. *)
Definition correlate_same (a v : list Q) : list Q :=
  let n1 := List.length a in
  let n2 := List.length v in
  let n_left := (n2 / 2)%nat in
  let n_right := (n2 - n_left - 1)%nat in
  map (fun i => dot a 0 v (n_left - i) (n2 - n_left + i)) (seq 0 n_left)
  ++ map (fun i => dot a i v 0 n2) (seq 0 (n1 - n2 + 1))
  ++ map (fun i => dot a (n1 - n2 + 1 + i) v 0 (n2 - 1 - i)) (seq 0 n_right).

(** [np.convolve(a, v, mode='same')]: the longer argument comes first,
    an empty argument is a ValueError, and the result is the correlation
    with the reversed second argument. *)
Definition np_convolve_same (a v : list Q) : Py.result (list Q) :=
  let '(a, v) := if (List.length a <? List.length v)%nat then (v, a) else (a, v) in
  if (List.length a =? 0)%nat then Py.Raise Py.ValueError
  else if (List.length v =? 0)%nat then Py.Raise Py.ValueError
  else Py.Ok (correlate_same a (rev v)).

(** *** The loop of [detect_peaks_troughs] *)

(** One iteration. [x < y > z] is [x < y and y > z]; the three reads are
    done up front (they are all in range inside the loop). *)
Definition extremum_step (hist_smooth : list Q) (acc : list Z * list Z) (i : Z)
  : Py.result (list Z * list Z) :=
  let '(peaks, troughs) := acc in
  try! prev <- Py.list_getitem hist_smooth (i - 1);
  try! cur <- Py.list_getitem hist_smooth i;
  try! next <- Py.list_getitem hist_smooth (i + 1);
  if Qltb prev cur && Qgtb cur next then Py.Ok (peaks ++ [i], troughs)
  else if Qgtb prev cur && Qltb cur next then Py.Ok (peaks, troughs ++ [i])
  else Py.Ok (peaks, troughs).

Definition find_extrema (hist_smooth : list Q) : Py.result (list Z * list Z) :=
  Py.for_loop (extremum_step hist_smooth)
    (Py.range 1 (Z.of_nat (List.length hist_smooth) - 1)) ([], []).

(** *** Reading the result

    [at_row P i] is [P[i]] for an index in range. An index is a peak when
    its value is strictly above both neighbours and a trough when it is
    strictly below both; the reads are the reads of the loop. *)
Definition at_row (P : list Q) (i : Z) : Q := nth (Z.to_nat i) P 0.

Definition peak_at (P : list Q) (i : Z) : Prop :=
  exists prev cur next,
    Py.list_getitem P (i - 1) = Py.Ok prev /\
    Py.list_getitem P i = Py.Ok cur /\
    Py.list_getitem P (i + 1) = Py.Ok next /\
    prev < cur /\ next < cur.

Definition trough_at (P : list Q) (i : Z) : Prop :=
  exists prev cur next,
    Py.list_getitem P (i - 1) = Py.Ok prev /\
    Py.list_getitem P i = Py.Ok cur /\
    Py.list_getitem P (i + 1) = Py.Ok next /\
    cur < prev /\ cur < next.

Definition strictly_increasing (P : list Q) : Prop :=
  forall i : nat, (i + 1 < List.length P)%nat -> nth i P 0 < nth (i + 1) P 0.

Definition strictly_decreasing (P : list Q) : Prop :=
  forall i : nat, (i + 1 < List.length P)%nat -> nth (i + 1) P 0 < nth i P 0.

Definition constant (P : list Q) : Prop :=
  forall i j : nat, (i < List.length P)%nat -> (j < List.length P)%nat ->
    nth i P 0 == nth j P 0.

(** The loop conditions as functions of the index. *)
Definition peakb (P : list Q) (i : Z) : bool :=
  Qltb (at_row P (i - 1)) (at_row P i) && Qgtb (at_row P i) (at_row P (i + 1)).

Definition troughb (P : list Q) (i : Z) : bool :=
  Qgtb (at_row P (i - 1)) (at_row P i) && Qltb (at_row P i) (at_row P (i + 1)).

(** *** The pipeline

    [cv2.cvtColor], [cv2.GaussianBlur] and [cv2.Canny] are taken together
    as one parameter mapping an image to its edge map, a uint8 array with
    one row per image row. *)

Section Pipeline.

Variable image : Type.
Variable cv2_edges : image -> list (list Z).

Definition smoothed_profile (img : image) : Py.result (list Q) :=
  let edges := cv2_edges img in
  let hist := np_sum_rows edges in
  np_convolve_same (map inject_Z hist) (np_ones_div 10 10).

Definition detect_peaks_troughs (img : image) : Py.result (list Z * list Z) :=
  try! hist_smooth <- smoothed_profile img;
  find_extrema hist_smooth.

End Pipeline.

(** *** The smoothing as the specification words it

    A centered moving average of window 10 whose boundary windows are
    truncated: the mean of the samples of [a] at the positions
    [i-5 .. i+4] that exist. *)
Definition window_positions (n : nat) (i : nat) : list nat :=
  List.filter (fun j => (i <=? j + 5)%nat && (j <=? i + 4)%nat) (seq 0 n).

Definition Qsum (l : list Q) : Q := fold_right Qplus 0 l.

Definition truncated_moving_average (a : list Q) (i : nat) : Q :=
  let w := window_positions (List.length a) i in
  Qsum (map (fun j => nth j a 0) w) / inject_Z (Z.of_nat (List.length w)).

(** The same window with the missing samples read as zero. *)
Definition zero_padded_moving_average (a : list Q) (i : nat) : Q :=
  Qsum (map (fun j => nth j a 0) (window_positions (List.length a) i)) / 10.

End Chart.

(** ** The price lines of the main loop (source lines 111-115)

    [if price:] tests the truth value of what [get_price] returned, and
    the f-string formats it with [.2f]. The rendered text is not modelled:
    the event carries the number that is rendered. *)

Module Display.

Import Http.
Open Scope string_scope.

(** Python truth value of a decoded JSON value. *)
Definition truthy (v : json) : bool :=
  match v with
  | JNull => false
  | JBool b => b
  | JNum q => negb (Qeq_bool q 0)
  | JStr s => negb (String.eqb s "")
  | JArr l => match l with [] => false | _ :: _ => true end
  | JObj m => negb (bool_decide (m = ∅))
  end.

(** [format(v, ".2f")]: numbers (and booleans, which are integers) are
    accepted; a string rejects the format code (ValueError); the other
    values do not support a format string (TypeError). *)
Definition format_2f (v : json) : Py.result Q :=
  match v with
  | JNum q => Py.Ok q
  | JBool b => Py.Ok (if b then 1%Q else 0%Q)
  | JStr _ => Py.Raise Py.ValueError
  | _ => Py.Raise Py.TypeError
  end.

Inductive ui_event : Type :=
| MarkdownPrice (amount : Q)
| Warning (message : string).

Definition show_price (price : json) : Py.result ui_event :=
  if truthy price then
    try! amount <- format_2f price;
    Py.Ok (MarkdownPrice amount)
  else
    Py.Ok (Warning "Could not fetch price data for this coin.").

(** [coin_id] is the identifier after [coin_name.lower()]. *)
Definition price_section (requests_get : string -> Py.result response)
    (coin_id : string) : Py.result ui_event :=
  let price := get_price requests_get coin_id in
  show_price price.

End Display.

(** ** A scripted generator

    The state is the list of the raw draws still to come; [_randbelow n]
    reduces the next one modulo [n]. *)

Module Scripted.

Definition randbelow (n : Z) (s : list Z) : Z * list Z :=
  match s with
  | [] => (0%Z, [])
  | x :: s' => ((x mod n)%Z, s')
  end.

End Scripted.

(** ** Sample inputs

    Concrete replies, records and images on which the model is run. *)

Module Samples.

Import Http.
Open Scope string_scope.

(** A reply with status 500 whose body nevertheless carries the price. *)
Definition priced_body : json :=
  JObj (<["bitcoin" := JObj (<["usdt" := JNum 42000]> ∅)]> ∅).

Definition error_status_reply : response :=
  mk_response 500 (Py.Ok priced_body).

Definition coin_record (name symbol : string) (change : Q) : json :=
  JObj (<["name" := JStr name]>
        (<["symbol" := JStr symbol]>
         (<["price_change_percentage_24h" := JNum change]> ∅))).

(** A market listing of three coins. *)
Definition three_coins : list json :=
  [coin_record "Bitcoin" "btc" 5; coin_record "Ethereum" "eth" 1;
   coin_record "Pepe" "pepe" (-3)].

Definition three_tuples : list (json * json * json) :=
  [(JStr "Bitcoin", JStr "btc", JNum 5); (JStr "Ethereum", JStr "eth", JNum 1);
   (JStr "Pepe", JStr "pepe", JNum (-3))].

Definition three_coins_reply : response :=
  mk_response 200 (Py.Ok (JArr three_coins)).

(** Images given directly by their edge maps (entries 0 or 255). *)
Definition edge_image : Type := list (list Z).
Definition edge_image_height (img : edge_image) : nat := List.length img.
Definition edge_image_edges (img : edge_image) : list (list Z) := img.

Definition short_image : edge_image := [[0]; [255]; [0]]%Z.
Definition flat_image : edge_image := repeat [255%Z] 12.

(** A profile with peaks at rows 1 and 7 and a trough at row 4. *)
Definition zigzag_profile : list Q := [1; 3; 2; 2; 1; 5; 5; 7; 0]%Q.

End Samples.

(** ** Further sample inputs *)

Module MoreSamples.

Import Http Samples.
Open Scope string_scope.

Definition head_coins : list json :=
  [coin_record "A" "a" 9; coin_record "B" "b" 8; coin_record "C" "c" 7;
   coin_record "D" "d" 6; coin_record "E" "e" 5].

Definition tail_coins : list json :=
  [coin_record "V" "v" (-5); coin_record "W" "w" (-6); coin_record "X" "x" (-7);
   coin_record "Y" "y" (-8); coin_record "Z" "z" (-9)].

Definition head_tuples : list (json * json * json) :=
  [(JStr "A", JStr "a", JNum 9); (JStr "B", JStr "b", JNum 8);
   (JStr "C", JStr "c", JNum 7); (JStr "D", JStr "d", JNum 6);
   (JStr "E", JStr "e", JNum 5)].

Definition tail_tuples : list (json * json * json) :=
  [(JStr "V", JStr "v", JNum (-5)); (JStr "W", JStr "w", JNum (-6));
   (JStr "X", JStr "x", JNum (-7)); (JStr "Y", JStr "y", JNum (-8));
   (JStr "Z", JStr "z", JNum (-9))].

(** Eleven records, the sixth of which is not a dict. *)
Definition eleven_reply : response :=
  mk_response 200 (Py.Ok (JArr (head_coins ++ [JNull] ++ tail_coins))).

(** A reply whose price field is zero, and one whose price is a string. *)
Definition zero_price_entry : json := JObj (<["usdt" := JNum 0]> ∅).
Definition zero_price_body : json := JObj (<["bitcoin" := zero_price_entry]> ∅).
Definition zero_price_reply : response := mk_response 200 (Py.Ok zero_price_body).


(** An edge map without any edge. *)
Definition blank_image : edge_image := repeat [0; 0; 0]%Z 4.

End MoreSamples.

(* ===================================================================== *)
(** * Part II: properties                                                 *)
(* ===================================================================== *)

Section DecisionFacts.

Import Decision.
Open Scope string_scope.
Open Scope Z_scope.

Lemma signals_distinct : LONG <> SHORT /\ LONG <> WAIT /\ SHORT <> WAIT.
Proof. repeat split; discriminate. Qed.

(** The signal of every call is one of the three labels. *)
Lemma mentor_decision_signal (rsi : Z) (macd bollinger : string) :
  let s := fst (mentor_decision rsi macd bollinger) in
  s = LONG \/ s = SHORT \/ s = WAIT.
Proof.
  unfold mentor_decision.
  repeat match goal with
         | |- context [if ?c then _ else _] => destruct c
         end; simpl; auto.
Qed.

End DecisionFacts.

Section DecisionTable.

Import Decision.
Open Scope string_scope.
Open Scope Z_scope.

(** C1: on the five states of the scenario table, with the rules tried in
    the order of the source and the first match winning, the engine
    answers Long, Short, Short, Long, Wait. *)
Theorem mentor_decision_scenarios :
  fst (mentor_decision 25 Bullish NearLowerBand) = LONG /\
  fst (mentor_decision 75 Bearish NearUpperBand) = SHORT /\
  fst (mentor_decision 50 Bearish NearUpperBand) = SHORT /\
  fst (mentor_decision 50 Bullish NearLowerBand) = LONG /\
  fst (mentor_decision 50 Bullish NearUpperBand) = WAIT.
Proof. repeat split; reflexivity. Qed.

(** Which rule produced an answer can be read off its explanation. *)
Lemma scenario_rules :
  snd (mentor_decision 25 Bullish NearLowerBand)
    = "Strong upside signal based on RSI < 30 and bullish MACD." /\
  snd (mentor_decision 75 Bearish NearUpperBand)
    = "RSI > 70 with bearish MACD suggests downside." /\
  snd (mentor_decision 50 Bearish NearUpperBand)
    = "Near upper Bollinger Band with bearish MACD." /\
  snd (mentor_decision 50 Bullish NearLowerBand)
    = "Near lower Bollinger Band with bullish MACD." /\
  snd (mentor_decision 50 Bullish NearUpperBand)
    = "Conditions not favorable for entry.".
Proof. repeat split; reflexivity. Qed.

(** C6: the engine is a total, deterministic function. Every state (any
    integer RSI, any MACD and Bollinger strings, in particular the two
    values each takes) has exactly one recommendation, its signal is
    Long, Short or Wait, and equal inputs give equal recommendations. *)
Theorem mentor_decision_total_deterministic (rsi : Z) (macd bollinger : string) :
  (exists! r : string * string,
     mentor_decision rsi macd bollinger = r /\
     (fst r = LONG \/ fst r = SHORT \/ fst r = WAIT)) /\
  (forall rsi' macd' bollinger',
     rsi' = rsi /\ macd' = macd /\ bollinger' = bollinger ->
     mentor_decision rsi' macd' bollinger' = mentor_decision rsi macd bollinger).
Proof.
  split.
  - exists (mentor_decision rsi macd bollinger). split.
    + split; [reflexivity | apply mentor_decision_signal].
    + intros r [Hr _]. exact Hr.
  - intros rsi' macd' bollinger' (-> & -> & ->). reflexivity.
Qed.

(** C9: the direction of a recommendation agrees with MACD. Long is
    returned only under a bullish MACD, Short only under a bearish one,
    and every other answer is Wait, whatever RSI and Bollinger are. *)
Theorem mentor_decision_follows_macd (rsi : Z) (macd bollinger : string) :
  let s := fst (mentor_decision rsi macd bollinger) in
  (s = LONG -> macd = Bullish) /\
  (s = SHORT -> macd = Bearish) /\
  (s <> LONG -> s <> SHORT -> s = WAIT).
Proof.
  unfold mentor_decision, Bullish, Bearish.
  destruct (String.eqb_spec macd "Bullish") as [Hb | Hb];
    destruct (String.eqb_spec macd "Bearish") as [Hr | Hr];
    destruct (rsi <? 30); destruct (rsi >? 70);
    destruct (String.eqb bollinger "Price near Upper Band");
    destruct (String.eqb bollinger "Price near Lower Band");
    simpl; repeat split; intros; try discriminate; try congruence; auto.
Qed.

End DecisionTable.

Section IndicatorFacts.

Import Decision Indicators.
Open Scope string_scope.
Open Scope Z_scope.

Variable rng : Type.
Variable randbelow : Z -> rng -> Z * rng.

(** The contract of [_randbelow]. *)
Hypothesis randbelow_range :
  forall n s, 0 < n -> 0 <= fst (randbelow n s) < n.

Lemma randint_20_80 (s : rng) :
  exists r s', randint rng randbelow 20 80 s = Py.Ok (r, s') /\ 20 <= r <= 80.
Proof using randbelow_range.
  unfold randint, randrange, mbind, draw, ret.
  change (80 + 1 - 20) with 61. simpl.
  pose proof (randbelow_range 61 s ltac:(lia)) as Hr.
  destruct (randbelow 61 s) as [r s']. simpl in Hr.
  exists (20 + r), s'. split; [reflexivity | lia].
Qed.

Lemma choice_pair (x y : string) (s : rng) :
  exists c s', choice rng randbelow [x; y] s = Py.Ok (c, s') /\ (c = x \/ c = y).
Proof using randbelow_range.
  unfold choice, mbind, draw, ret.
  change (Z.of_nat (List.length [x; y])) with 2. simpl.
  pose proof (randbelow_range 2 s ltac:(lia)) as Hr.
  destruct (randbelow 2 s) as [r s']. simpl in Hr.
  assert (r = 0 \/ r = 1) as [-> | ->] by lia.
  - exists x, s'. split; [reflexivity | auto].
  - exists y, s'. split; [reflexivity | auto].
Qed.

(** C8: whatever the generator draws, [mock_indicators] returns without
    raising, with RSI an integer in [20, 80], MACD one of Bullish and
    Bearish and Bollinger one of the two band positions. Hence the
    engine's RSI < 30 rule can only fire with RSI in [20, 29] and its
    RSI > 70 rule only with RSI in [71, 80]. *)
Theorem mock_indicators_range (s : rng) :
  exists ind s',
    mock_indicators rng randbelow s = Py.Ok (ind, s') /\
    20 <= RSI ind <= 80 /\
    (MACD ind = Bullish \/ MACD ind = Bearish) /\
    (Bollinger ind = NearUpperBand \/ Bollinger ind = NearLowerBand) /\
    (snd (mentor_decision (RSI ind) (MACD ind) (Bollinger ind))
       = "Strong upside signal based on RSI < 30 and bullish MACD."
     -> 20 <= RSI ind <= 29) /\
    (snd (mentor_decision (RSI ind) (MACD ind) (Bollinger ind))
       = "RSI > 70 with bearish MACD suggests downside."
     -> 71 <= RSI ind <= 80).
Proof using randbelow_range.
  unfold mock_indicators, mbind.
  destruct (randint_20_80 s) as (r & s1 & -> & Hr).
  destruct (choice_pair "Bullish" "Bearish" s1) as (m & s2 & -> & Hm).
  destruct (choice_pair "Price near Upper Band" "Price near Lower Band" s2)
    as (b & s3 & -> & Hb).
  exists (mk_indicators r m b), s3. simpl.
  split; [reflexivity |]. split; [exact Hr |].
  split; [exact Hm |]. split; [exact Hb |].
  unfold mentor_decision.
  destruct (Z.ltb_spec r 30); destruct (Z.gtb_spec r 70);
    destruct Hm as [-> | ->]; destruct Hb as [-> | ->]; simpl;
    split; intros; try discriminate; lia.
Qed.

End IndicatorFacts.

Lemma mock_indicators_range_witness :
  exists ind s',
    Indicators.mock_indicators Z Indicators.counter_randbelow 7%Z = Py.Ok (ind, s') /\
    (20 <= Indicators.RSI ind <= 80)%Z.
Proof.
  destruct (mock_indicators_range Z Indicators.counter_randbelow) with (s := 7%Z)
    as (ind & s' & H1 & H2 & _).
  - intros n s Hn. simpl. apply Z.mod_pos_bound. exact Hn.
  - exists ind, s'. split; assumption.
Defined.

Section HttpFacts.

Import Http Samples.
Open Scope string_scope.

(** C7, as worded, fails: the status code is never inspected, so a reply
    with a non-2xx status and a well-formed body yields the price and not
    the sentinel. *)
Lemma get_price_non_2xx_returns_price :
  ~ (200 <= status_code error_status_reply < 300)%Z /\
  get_price (fun _ => Py.Ok error_status_reply) "bitcoin" = JNum 42000 /\
  get_price (fun _ => Py.Ok error_status_reply) "bitcoin" <> JNull.
Proof.
  split; [simpl; lia |].
  assert (get_price (fun _ => Py.Ok error_status_reply) "bitcoin" = JNum 42000) as E
    by (vm_compute; reflexivity).
  split; [exact E | rewrite E; discriminate].
Qed.

(** C7, amended: [get_price] returns the sentinel [None] whenever the
    request raises (timeout or any other error), the body is not JSON, or
    the coin entry or its price field is missing, and it never lets an
    exception through; when all four steps succeed it returns the nested
    price field, whatever the status code of the reply is. *)
Theorem get_price_sentinel (requests_get : string -> Py.result response)
    (coin_id : string) :
  let price := get_price requests_get coin_id in
  let reply := requests_get (price_url coin_id) in
  (forall e, reply = Py.Raise e -> price = JNull) /\
  (forall r e, reply = Py.Ok r -> response_json r = Py.Raise e -> price = JNull) /\
  (forall r data e, reply = Py.Ok r -> response_json r = Py.Ok data ->
     getitem data coin_id = Py.Raise e -> price = JNull) /\
  (forall r data entry e, reply = Py.Ok r -> response_json r = Py.Ok data ->
     getitem data coin_id = Py.Ok entry -> getitem entry "usdt" = Py.Raise e ->
     price = JNull) /\
  (forall r data entry p, reply = Py.Ok r -> response_json r = Py.Ok data ->
     getitem data coin_id = Py.Ok entry -> getitem entry "usdt" = Py.Ok p ->
     price = p).
Proof.
  unfold get_price. cbv zeta.
  repeat split; intros;
    repeat match goal with
           | H : _ = Py.Ok _ |- _ => rewrite H; clear H; simpl
           | H : _ = Py.Raise _ |- _ => rewrite H; clear H; simpl
           end; reflexivity.
Qed.

(** The failure modes on concrete replies: a raised timeout, a body that
    is not JSON, a JSON body without the coin, and a coin without price. *)
Example get_price_failures :
  get_price (fun _ => Py.Raise Py.RequestException) "bitcoin" = JNull /\
  get_price (fun _ => Py.Ok (mk_response 200 (Py.Raise Py.ValueError))) "bitcoin" = JNull /\
  get_price (fun _ => Py.Ok (mk_response 429 (Py.Ok (JObj ∅)))) "bitcoin" = JNull /\
  get_price (fun _ => Py.Ok (mk_response 200 (Py.Ok (JArr [])))) "bitcoin" = JNull /\
  get_price (fun _ => Py.Ok (mk_response 200 (Py.Ok priced_body))) "ethereum" = JNull /\
  get_price (fun _ => Py.Ok (mk_response 200
               (Py.Ok (JObj (<["bitcoin" := JObj ∅]> ∅))))) "bitcoin" = JNull.
Proof. repeat split; vm_compute; reflexivity. Qed.

End HttpFacts.

Section MoversFacts.

Import Http.
Open Scope string_scope.

Lemma for_each_length {A B : Type} (f : A -> Py.result B) (l : list A) (ys : list B) :
  Py.for_each f l = Py.Ok ys -> List.length ys = List.length l.
Proof.
  revert ys. induction l as [| x l IH]; intros ys H; simpl in H.
  - injection H as <-. reflexivity.
  - destruct (f x) as [y | e]; simpl in H; [| discriminate].
    destruct (Py.for_each f l) as [ys' | e]; simpl in H; [| discriminate].
    injection H as <-. simpl. f_equal. apply IH. reflexivity.
Qed.

Lemma for_each_firstn {A B : Type} (f : A -> Py.result B) (k : nat) (l : list A) (ys : list B) :
  Py.for_each f l = Py.Ok ys -> Py.for_each f (firstn k l) = Py.Ok (firstn k ys).
Proof.
  revert l ys. induction k as [| k IH]; intros l ys H; [reflexivity |].
  destruct l as [| x l]; simpl in H.
  - injection H as <-. reflexivity.
  - destruct (f x) as [y | e] eqn:Ey; simpl in H; [| discriminate].
    destruct (Py.for_each f l) as [ys' | e] eqn:El; simpl in H; [| discriminate].
    injection H as <-. simpl. rewrite Ey. simpl.
    rewrite (IH l ys' El). reflexivity.
Qed.

Lemma for_each_skipn {A B : Type} (f : A -> Py.result B) (k : nat) (l : list A) (ys : list B) :
  Py.for_each f l = Py.Ok ys -> Py.for_each f (skipn k l) = Py.Ok (skipn k ys).
Proof.
  revert l ys. induction k as [| k IH]; intros l ys H; [exact H |].
  destruct l as [| x l]; simpl in H.
  - injection H as <-. reflexivity.
  - destruct (f x) as [y | e]; simpl in H; [| discriminate].
    destruct (Py.for_each f l) as [ys' | e] eqn:El; simpl in H; [| discriminate].
    injection H as <-. simpl. apply IH. exact El.
Qed.

Lemma In_nth_firstn {A : Type} (l : list A) (i k : nat) (d : A) :
  (i < k)%nat -> (i < List.length l)%nat -> In (nth i l d) (firstn k l).
Proof.
  intros Hk Hl. rewrite <- (firstn_skipn k l) at 1.
  rewrite app_nth1 by (rewrite length_firstn; lia).
  apply nth_In. rewrite length_firstn. lia.
Qed.

Lemma In_nth_skipn {A : Type} (l : list A) (i k : nat) (d : A) :
  (k <= i)%nat -> (i < List.length l)%nat -> In (nth i l d) (skipn k l).
Proof.
  intros Hk Hl. rewrite <- (firstn_skipn k l) at 1.
  rewrite app_nth2 by (rewrite length_firstn; lia).
  apply nth_In. rewrite length_firstn, length_skipn. lia.
Qed.

Lemma firstn_skipn_disjoint {A : Type} (l : list A) (j k : nat) (x : A) :
  List.NoDup l -> (j <= k)%nat -> In x (firstn j l) -> ~ In x (skipn k l).
Proof.
  intros Hnd Hjk Hin1 Hin2.
  rewrite <- (firstn_skipn j l) in Hnd.
  replace k with ((k - j) + j)%nat in Hin2 by lia.
  rewrite <- skipn_skipn in Hin2.
  assert (In x (skipn j l)) as Hin3.
  { rewrite <- (firstn_skipn (k - j) (skipn j l)). apply in_or_app. right. exact Hin2. }
  clear Hin2. revert Hnd Hin1 Hin3.
  generalize (firstn j l) (skipn j l). intros l1 l2 Hnd Hin1 Hin3.
  induction l1 as [| y l1 IH]; [destruct Hin1 |].
  inversion Hnd as [| ? ? Hy Hnd']; subst.
  destruct Hin1 as [-> | Hin1].
  - apply Hy. apply in_or_app. right. exact Hin3.
  - apply IH; assumption.
Qed.

(** What [get_top_movers] returns when the fetch succeeds with a list of
    records all carrying the three fields. *)
Lemma get_top_movers_success requests_get r data tuples :
  requests_get movers_url = Py.Ok r ->
  response_json r = Py.Ok (JArr data) ->
  Py.for_each mover_tuple data = Py.Ok tuples ->
  get_top_movers requests_get = (first5 tuples, last5 tuples).
Proof.
  intros Hget Hjson Htuples. unfold get_top_movers. cbv zeta.
  rewrite Hget. simpl. rewrite Hjson. simpl.
  unfold first5 at 1. rewrite (for_each_firstn _ 5 _ _ Htuples). simpl.
  unfold last5 at 1. rewrite (for_each_skipn _ _ _ _ Htuples). simpl.
  unfold first5, last5. rewrite (for_each_length _ _ _ Htuples). reflexivity.
Qed.

(** C10: when the fetch succeeds with between 1 and 9 records, the
    gainers (first five) and the losers (last five) share a record, so
    one coin is listed on both sides; with at least 10 pairwise distinct
    records the two lists are disjoint. *)
Theorem get_top_movers_overlap requests_get r data tuples
    (Hget : requests_get movers_url = Py.Ok r)
    (Hjson : response_json r = Py.Ok (JArr data))
    (Htuples : Py.for_each mover_tuple data = Py.Ok tuples) :
  let '(top_gainers, top_losers) := get_top_movers requests_get in
  ((1 <= List.length data < 10)%nat ->
     exists coin, In coin top_gainers /\ In coin top_losers) /\
  ((10 <= List.length data)%nat -> List.NoDup tuples ->
     forall coin, In coin top_gainers -> ~ In coin top_losers).
Proof.
  rewrite (get_top_movers_success _ _ _ _ Hget Hjson Htuples).
  pose proof (for_each_length _ _ _ Htuples) as Hlen.
  unfold first5, last5. rewrite Hlen. split.
  - intros Hn.
    exists (nth (Nat.min 4 (List.length data - 1)) tuples (JNull, JNull, JNull)).
    split.
    + apply In_nth_firstn; lia.
    + apply In_nth_skipn; lia.
  - intros Hn Hnd coin. apply firstn_skipn_disjoint; [exact Hnd | lia].
Qed.

End MoversFacts.

Section ExtremaFacts.

Import Chart.
Open Scope Z_scope.

Lemma Qltb_lt (x y : Q) : Qltb x y = true <-> (x < y)%Q.
Proof. unfold Qltb, Qlt. apply Z.ltb_lt. Qed.

Lemma getitem_at_row (P : list Q) (i : Z) :
  0 <= i < Z.of_nat (List.length P) ->
  Py.list_getitem P i = Py.Ok (at_row P i).
Proof.
  intros Hi. unfold Py.list_getitem, at_row.
  assert ((i <? 0) = false) as Hlt by (apply Z.ltb_ge; lia).
  assert ((Z.of_nat (List.length P) <=? i) = false) as Hle by (apply Z.leb_gt; lia).
  rewrite Hlt. cbv zeta. rewrite Hlt, Hle. simpl.
  rewrite (nth_error_nth' P 0%Q) by lia. reflexivity.
Qed.

(** Inside the loop the three reads succeed and one iteration is a case
    distinction on [peakb] and [troughb]. *)
Lemma extremum_step_eq (P : list Q) (peaks troughs : list Z) (i : Z) :
  1 <= i -> i + 1 < Z.of_nat (List.length P) ->
  extremum_step P (peaks, troughs) i =
  Py.Ok (if peakb P i then (peaks ++ [i], troughs)
         else if troughb P i then (peaks, troughs ++ [i])
         else (peaks, troughs)).
Proof.
  intros H1 H2. unfold extremum_step, peakb, troughb.
  rewrite !getitem_at_row by lia. simpl.
  destruct (Qltb (at_row P (i - 1)) (at_row P i) && Qgtb (at_row P i) (at_row P (i + 1)));
    [reflexivity |].
  destruct (Qgtb (at_row P (i - 1)) (at_row P i) && Qltb (at_row P i) (at_row P (i + 1)));
    reflexivity.
Qed.

Lemma for_loop_extrema (P : list Q) (l : list Z) :
  Forall (fun i => 1 <= i /\ i + 1 < Z.of_nat (List.length P)) l ->
  forall peaks troughs,
    Py.for_loop (extremum_step P) l (peaks, troughs) =
    Py.Ok (peaks ++ List.filter (peakb P) l,
           troughs ++ List.filter (fun i => negb (peakb P i) && troughb P i) l).
Proof.
  induction 1 as [| i l [Hi1 Hi2] _ IH]; intros peaks troughs;
    cbn [Py.for_loop List.filter].
  - rewrite !app_nil_r. reflexivity.
  - rewrite extremum_step_eq by assumption. cbn [Py.bind].
    destruct (peakb P i); simpl.
    + rewrite IH, <- app_assoc. reflexivity.
    + destruct (troughb P i); simpl; rewrite IH; [rewrite <- app_assoc |]; reflexivity.
Qed.

Lemma In_range (lo hi i : Z) : In i (Py.range lo hi) <-> lo <= i < hi.
Proof.
  unfold Py.range. rewrite in_map_iff. split.
  - intros (k & <- & Hk). apply in_seq in Hk. lia.
  - intros Hi. exists (Z.to_nat (i - lo)). split; [lia |]. apply in_seq. lia.
Qed.

Lemma range_sorted (lo hi : Z) : StronglySorted Z.lt (Py.range lo hi).
Proof.
  unfold Py.range. generalize (Z.to_nat (hi - lo)) as n. generalize 0%nat as b.
  intros b n. revert b. induction n as [| n IH]; intros b; simpl; constructor.
  - apply IH.
  - apply List.Forall_forall. intros x Hx. apply in_map_iff in Hx.
    destruct Hx as (k & <- & Hk). apply in_seq in Hk. lia.
Qed.

Lemma filter_sorted (f : Z -> bool) (l : list Z) :
  StronglySorted Z.lt l -> StronglySorted Z.lt (List.filter f l).
Proof.
  induction 1 as [| x l Hl IH Hx]; simpl; [constructor |].
  destruct (f x); [| exact IH].
  constructor; [exact IH |].
  apply List.Forall_forall. intros y Hy. apply filter_In in Hy.
  rewrite List.Forall_forall in Hx. apply Hx. tauto.
Qed.

(** The loop never raises, and its result is the rows of
    [range(1, len - 1)] selected by the two conditions. *)
Lemma find_extrema_eq (P : list Q) :
  let rows := Py.range 1 (Z.of_nat (List.length P) - 1) in
  find_extrema P =
  Py.Ok (List.filter (peakb P) rows,
         List.filter (fun i => negb (peakb P i) && troughb P i) rows).
Proof.
  intros rows. unfold find_extrema. fold rows.
  rewrite for_loop_extrema; [reflexivity |].
  apply List.Forall_forall. intros i Hi. apply In_range in Hi. lia.
Qed.

Lemma peakb_peak_at (P : list Q) (i : Z) :
  1 <= i -> i + 1 < Z.of_nat (List.length P) -> peakb P i = true -> peak_at P i.
Proof.
  intros H1 H2 Hb. unfold peakb, Qgtb in Hb. apply andb_prop in Hb as [Ha Hc].
  apply Qltb_lt in Ha, Hc.
  exists (at_row P (i - 1)), (at_row P i), (at_row P (i + 1)).
  rewrite !getitem_at_row by lia. auto.
Qed.

Lemma troughb_trough_at (P : list Q) (i : Z) :
  1 <= i -> i + 1 < Z.of_nat (List.length P) -> troughb P i = true -> trough_at P i.
Proof.
  intros H1 H2 Hb. unfold troughb, Qgtb in Hb. apply andb_prop in Hb as [Ha Hc].
  apply Qltb_lt in Ha, Hc.
  exists (at_row P (i - 1)), (at_row P i), (at_row P (i + 1)).
  rewrite !getitem_at_row by lia. auto.
Qed.

End ExtremaFacts.

Section ExtremaTheorems.

Import Chart.
Open Scope Z_scope.

Lemma filter_none {A : Type} (f : A -> bool) (l : list A) :
  (forall x, In x l -> f x = false) -> List.filter f l = [].
Proof.
  induction l as [| x l IH]; intros H; simpl; [reflexivity |].
  rewrite (H x) by (left; reflexivity). apply IH.
  intros y Hy. apply H. right. exact Hy.
Qed.

Lemma at_row_next (P : list Q) (i : Z) :
  0 <= i -> at_row P (i + 1) = nth (Z.to_nat i + 1) P 0%Q.
Proof. intros Hi. unfold at_row. f_equal. lia. Qed.

Lemma monotone_neighbours (P : list Q) (i : Z) :
  1 <= i -> i + 1 < Z.of_nat (List.length P) ->
  strictly_increasing P \/ strictly_decreasing P \/ constant P ->
  let a := at_row P (i - 1) in
  let b := at_row P i in
  let c := at_row P (i + 1) in
  (a < b /\ b < c)%Q \/ (b < a /\ c < b)%Q \/ (a == b /\ b == c)%Q.
Proof.
  intros H1 H2 Hshape. cbv zeta.
  assert (at_row P i = nth (Z.to_nat (i - 1) + 1) P 0%Q) as Ecur
    by (unfold at_row; f_equal; lia).
  rewrite (at_row_next P i) by lia.
  destruct Hshape as [Hinc | [Hdec | Hconst]].
  - left. split.
    + rewrite Ecur. apply Hinc. lia.
    + apply Hinc. lia.
  - right. left. split.
    + rewrite Ecur. apply Hdec. lia.
    + apply Hdec. lia.
  - right. right. split; apply Hconst; lia.
Qed.

Lemma Qltb_false (x y : Q) : ~ (x < y)%Q -> Qltb x y = false.
Proof.
  intros H. destruct (Qltb x y) eqn:E; [| reflexivity].
  apply Qltb_lt in E. contradiction.
Qed.

Lemma monotone_no_extremum (P : list Q) (i : Z) :
  1 <= i -> i + 1 < Z.of_nat (List.length P) ->
  strictly_increasing P \/ strictly_decreasing P \/ constant P ->
  peakb P i = false /\ troughb P i = false.
Proof.
  intros H1 H2 Hshape.
  pose proof (monotone_neighbours P i H1 H2 Hshape) as Hn. cbv zeta in Hn.
  unfold peakb, troughb, Qgtb.
  destruct Hn as [[Hab Hbc] | [[Hba Hcb] | [Hab Hbc]]].
  - rewrite (Qltb_false (at_row P (i + 1)) (at_row P i)) by lra.
    rewrite (Qltb_false (at_row P i) (at_row P (i - 1))) by lra.
    rewrite andb_false_r. auto.
  - rewrite (Qltb_false (at_row P (i - 1)) (at_row P i)) by lra.
    rewrite (Qltb_false (at_row P i) (at_row P (i + 1))) by lra.
    rewrite andb_false_r. auto.
  - rewrite (Qltb_false (at_row P (i - 1)) (at_row P i)) by lra.
    rewrite (Qltb_false (at_row P i) (at_row P (i - 1))) by lra.
    auto.
Qed.

(** C2: for a profile of length H >= 3 the loop returns, every reported
    peak is strictly above both neighbours, every reported trough is
    strictly below both, and neither 0 nor H-1 is reported. Consequently
    a row equal to a neighbour is never reported, and a strictly
    monotonic or constant profile yields no peak and no trough. *)
Theorem find_extrema_sound (P : list Q) (H3 : (3 <= List.length P)%nat) :
  exists peaks troughs,
    find_extrema P = Py.Ok (peaks, troughs) /\
    (forall i, In i peaks -> peak_at P i) /\
    (forall i, In i troughs -> trough_at P i) /\
    (forall i, In i peaks \/ In i troughs ->
       i <> 0 /\ i <> Z.of_nat (List.length P) - 1) /\
    (forall i, In i peaks \/ In i troughs ->
       ~ (at_row P (i - 1) == at_row P i)%Q /\ ~ (at_row P i == at_row P (i + 1))%Q) /\
    (strictly_increasing P \/ strictly_decreasing P \/ constant P ->
       peaks = [] /\ troughs = []).
Proof.
  eexists _, _. split; [apply find_extrema_eq |].
  set (rows := Py.range 1 (Z.of_nat (List.length P) - 1)).
  assert (forall i, In i (List.filter (peakb P) rows) ->
                    1 <= i /\ i + 1 < Z.of_nat (List.length P) /\ peakb P i = true) as Hpk.
  { intros i Hi. apply filter_In in Hi as [Hi Hb]. apply In_range in Hi.
    split; [lia | split; [lia | exact Hb]]. }
  assert (forall i, In i (List.filter (fun i => negb (peakb P i) && troughb P i) rows) ->
                    1 <= i /\ i + 1 < Z.of_nat (List.length P) /\ troughb P i = true) as Htr.
  { intros i Hi. apply filter_In in Hi as [Hi Hb]. apply In_range in Hi.
    apply andb_prop in Hb as [_ Hb]. split; [lia | split; [lia | exact Hb]]. }
  assert (forall i, In i (List.filter (peakb P) rows) \/
                    In i (List.filter (fun i => negb (peakb P i) && troughb P i) rows) ->
                    1 <= i /\ i + 1 < Z.of_nat (List.length P) /\
                    (peakb P i = true \/ troughb P i = true)) as Hany.
  { intros i [Hi | Hi]; [apply Hpk in Hi | apply Htr in Hi]; tauto. }
  split; [| split; [| split; [| split]]].
  - intros i Hi. apply Hpk in Hi as (? & ? & ?). apply peakb_peak_at; assumption.
  - intros i Hi. apply Htr in Hi as (? & ? & ?). apply troughb_trough_at; assumption.
  - intros i Hi. apply Hany in Hi. lia.
  - intros i Hi. apply Hany in Hi as (_ & _ & Hb).
    unfold peakb, troughb, Qgtb in Hb.
    destruct Hb as [Hb | Hb]; apply andb_prop in Hb as [Ha Hc];
      apply Qltb_lt in Ha, Hc; split; lra.
  - intros Hshape. split; apply filter_none; intros i Hi; apply In_range in Hi.
    + apply (monotone_no_extremum P i); [lia | lia | assumption].
    + destruct (monotone_no_extremum P i) as [_ ->]; [lia | lia | assumption |].
      apply andb_false_r.
Qed.

(** C3: for every profile the loop returns, the peaks and the troughs
    are strictly increasing lists of indices, no index is in both, and
    every reported index lies in [1, H-2], H being the profile length. *)
Theorem find_extrema_invariant (P : list Q) :
  exists peaks troughs,
    find_extrema P = Py.Ok (peaks, troughs) /\
    StronglySorted Z.lt peaks /\
    StronglySorted Z.lt troughs /\
    (forall i, In i peaks -> ~ In i troughs) /\
    (forall i, In i peaks \/ In i troughs ->
       1 <= i <= Z.of_nat (List.length P) - 2).
Proof.
  eexists _, _. split; [apply find_extrema_eq |].
  split; [| split; [| split]].
  - apply filter_sorted, range_sorted.
  - apply filter_sorted, range_sorted.
  - intros i Hp Ht. apply filter_In in Hp as [_ Hp]. apply filter_In in Ht as [_ Ht].
    rewrite Hp in Ht. discriminate.
  - intros i [Hi | Hi]; apply filter_In in Hi as [Hi _]; apply In_range in Hi; lia.
Qed.

End ExtremaTheorems.

Section ConvolveFacts.

Import Chart.
Open Scope Q_scope.

Lemma fold_left_Qsum (g : nat -> Q) (l : list nat) (acc : Q) :
  fold_left (fun tmp k => tmp + g k) l acc == acc + Qsum (map g l).
Proof.
  revert acc. induction l as [| k l IH]; intros acc; simpl.
  - ring.
  - rewrite IH. ring.
Qed.

Lemma dot_Qsum (a : list Q) (ia : nat) (v : list Q) (iv n : nat) :
  dot a ia v iv n
  == Qsum (map (fun k => nth (ia + k) a 0 * nth (iv + k) v 0) (seq 0 n)).
Proof. unfold dot. rewrite fold_left_Qsum. ring. Qed.

Lemma Qsum_nonneg (l : list Q) : List.Forall (fun x => 0 <= x) l -> 0 <= Qsum l.
Proof.
  induction 1 as [| x l Hx _ IH]; simpl; [apply Qle_refl |].
  replace 0 with (0 + 0) by reflexivity. apply Qplus_le_compat; assumption.
Qed.

Lemma nth_nonneg (a : list Q) (k : nat) :
  List.Forall (fun x => 0 <= x) a -> 0 <= nth k a 0.
Proof.
  intros Ha. destruct (Nat.lt_ge_cases k (List.length a)) as [Hk | Hk].
  - rewrite List.Forall_forall in Ha. apply Ha. apply nth_In. exact Hk.
  - rewrite nth_overflow by exact Hk. apply Qle_refl.
Qed.

Lemma dot_nonneg (a : list Q) (ia : nat) (v : list Q) (iv n : nat) :
  List.Forall (fun x => 0 <= x) a -> List.Forall (fun x => 0 <= x) v ->
  0 <= dot a ia v iv n.
Proof.
  intros Ha Hv. rewrite dot_Qsum. apply Qsum_nonneg.
  apply List.Forall_forall. intros x Hx. apply in_map_iff in Hx as (k & <- & _).
  apply Qmult_le_0_compat; apply nth_nonneg; assumption.
Qed.

Lemma correlate_same_length (a v : list Q) :
  (1 <= List.length v <= List.length a)%nat ->
  List.length (correlate_same a v) = List.length a.
Proof.
  intros Hlen. unfold correlate_same.
  rewrite !length_app, !length_map, !length_seq.
  pose proof (Nat.div_mod_eq (List.length v) 2) as Hdiv.
  pose proof (Nat.mod_upper_bound (List.length v) 2 ltac:(lia)) as Hmod.
  lia.
Qed.

Lemma correlate_same_nonneg (a v : list Q) :
  List.Forall (fun x => 0 <= x) a -> List.Forall (fun x => 0 <= x) v ->
  List.Forall (fun x => 0 <= x) (correlate_same a v).
Proof.
  intros Ha Hv. unfold correlate_same.
  apply List.Forall_app; split; [| apply List.Forall_app; split];
    apply List.Forall_forall; intros x Hx; apply in_map_iff in Hx as (k & <- & _);
    apply dot_nonneg; assumption.
Qed.

(** The kernel [np.ones(10)/10], reversed as [np.convolve] passes it on:
    ten weights 1/10. *)
Lemma kernel_length : List.length (rev (np_ones_div 10 10)) = 10%nat.
Proof. reflexivity. Qed.

Lemma kernel_nth (j : nat) :
  (j < 10)%nat -> nth j (rev (np_ones_div 10 10)) 0 = 1 # 10.
Proof.
  intros Hj. do 10 (destruct j as [| j]; [reflexivity |]). lia.
Qed.

Lemma kernel_nonneg : List.Forall (fun x => 0 <= x) (rev (np_ones_div 10 10)).
Proof. repeat constructor; discriminate. Qed.

Lemma np_ones_div_nonneg : List.Forall (fun x => 0 <= x) (np_ones_div 10 10).
Proof. repeat constructor; discriminate. Qed.

(** The convolution never fails on two non-empty arguments, its output is
    as long as the longer one, and it keeps non-negative data
    non-negative. *)
Lemma np_convolve_same_shape (a v : list Q) :
  (1 <= List.length a)%nat -> (1 <= List.length v)%nat ->
  List.Forall (fun x => 0 <= x) a -> List.Forall (fun x => 0 <= x) v ->
  exists out,
    np_convolve_same a v = Py.Ok out /\
    List.length out = Nat.max (List.length a) (List.length v) /\
    List.Forall (fun x => 0 <= x) out.
Proof.
  intros Ha Hv Pa Pv. unfold np_convolve_same.
  destruct (Nat.ltb_spec (List.length a) (List.length v)) as [Hlt | Hge].
  - destruct (Nat.eqb_spec (List.length v) 0) as [? | _]; [lia |].
    destruct (Nat.eqb_spec (List.length a) 0) as [? | _]; [lia |].
    eexists. split; [reflexivity |]. split.
    + rewrite correlate_same_length by (rewrite length_rev; lia). lia.
    + apply correlate_same_nonneg; [exact Pv |].
      apply List.Forall_forall. intros x Hx. apply in_rev in Hx.
      rewrite List.Forall_forall in Pa. apply Pa. exact Hx.
  - destruct (Nat.eqb_spec (List.length a) 0) as [? | _]; [lia |].
    destruct (Nat.eqb_spec (List.length v) 0) as [? | _]; [lia |].
    eexists. split; [reflexivity |]. split.
    + rewrite correlate_same_length by (rewrite length_rev; lia). lia.
    + apply correlate_same_nonneg; [exact Pa |].
      apply List.Forall_forall. intros x Hx. apply in_rev in Hx.
      rewrite List.Forall_forall in Pv. apply Pv. exact Hx.
Qed.

Lemma np_sum_rows_nonneg (edges : list (list Z)) :
  List.Forall (fun x => 0 <= x) (map inject_Z (np_sum_rows edges)).
Proof.
  apply List.Forall_forall. intros x Hx. unfold np_sum_rows in Hx.
  rewrite map_map in Hx. apply in_map_iff in Hx as (row & <- & _).
  rewrite <- (Zle_Qle 0). apply Z.mod_pos_bound. reflexivity.
Qed.

Lemma filter_interval (lo hi s n : nat) :
  List.filter (fun j => (lo <=? j)%nat && (j <? hi)%nat) (seq s n)
  = seq (Nat.max s lo) (Nat.min (s + n) hi - Nat.max s lo).
Proof.
  revert s. induction n as [| n IH]; intros s.
  - simpl. replace (Nat.min (s + 0) hi - Nat.max s lo)%nat with 0%nat by lia.
    reflexivity.
  - cbn [seq List.filter]. rewrite IH.
    destruct (Nat.leb_spec lo s) as [Hlo | Hlo];
      destruct (Nat.ltb_spec s hi) as [Hhi | Hhi]; cbn [andb].
    + replace (Nat.max s lo) with s by lia.
      replace (Nat.min (s + S n) hi - s)%nat
        with (S (Nat.min (S s + n) hi - Nat.max (S s) lo)) by lia.
      cbn [seq]. f_equal. f_equal. lia.
    + replace (Nat.min (S s + n) hi - Nat.max (S s) lo)%nat with 0%nat by lia.
      replace (Nat.min (s + S n) hi - Nat.max s lo)%nat with 0%nat by lia.
      reflexivity.
    + f_equal; lia.
    + replace (Nat.min (S s + n) hi - Nat.max (S s) lo)%nat with 0%nat by lia.
      replace (Nat.min (s + S n) hi - Nat.max s lo)%nat with 0%nat by lia.
      reflexivity.
Qed.

(** The window of row [i]: the rows [i-5 .. i+4] that exist. *)
Lemma window_positions_seq (n i : nat) :
  window_positions n i = seq (i - 5) (Nat.min n (i + 5) - (i - 5)).
Proof.
  unfold window_positions.
  rewrite (filter_ext _ (fun j => (i - 5 <=? j)%nat && (j <? i + 5)%nat)).
  - rewrite filter_interval. f_equal; lia.
  - intros j.
    destruct (Nat.leb_spec i (j + 5)); destruct (Nat.leb_spec j (i + 4));
      destruct (Nat.leb_spec (i - 5) j); destruct (Nat.ltb_spec j (i + 5));
      simpl; try reflexivity; lia.
Qed.

Lemma map_seq_shift {A : Type} (f : nat -> A) (s n : nat) :
  map (fun k => f (s + k)%nat) (seq 0 n) = map f (seq s n).
Proof.
  revert s f. induction n as [| n IH]; intros s f; [reflexivity |].
  cbn [seq map]. rewrite Nat.add_0_r. f_equal.
  rewrite <- seq_shift, map_map. rewrite <- (IH (S s) f).
  apply map_ext. intros k. f_equal. lia.
Qed.

Lemma Qsum_scaled (g h : nat -> Q) (c : Q) (l : list nat) :
  (forall k, In k l -> g k == h k * c) ->
  Qsum (map g l) == Qsum (map h l) * c.
Proof.
  induction l as [| k l IH]; intros H; simpl.
  - ring.
  - rewrite (H k) by (left; reflexivity).
    rewrite IH by (intros j Hj; apply H; right; exact Hj). ring.
Qed.

(** A run of the reversed kernel only contributes the weight 1/10. *)
Lemma dot_kernel (a : list Q) (ia iv n : nat) :
  (iv + n <= 10)%nat ->
  dot a ia (rev (np_ones_div 10 10)) iv n
  == Qsum (map (fun j => nth j a 0) (seq ia n)) / 10.
Proof.
  intros Hn. rewrite dot_Qsum.
  rewrite (Qsum_scaled _ (fun k => nth (ia + k) a 0) (1 # 10)).
  - rewrite (map_seq_shift (fun j => nth j a 0) ia n). field.
  - intros k Hk. apply in_seq in Hk. rewrite kernel_nth by lia. reflexivity.
Qed.

Lemma nth_map_seq {A : Type} (f : nat -> A) (n i : nat) (d : A) :
  (i < n)%nat -> nth i (map f (seq 0 n)) d = f i.
Proof.
  intros Hi. rewrite (nth_indep _ d (f 0%nat)) by (rewrite length_map, length_seq; lia).
  rewrite (map_nth f (seq 0 n) 0%nat i). rewrite seq_nth by lia. reflexivity.
Qed.

(** Row [i] of the smoothing of at least ten samples is the sum of the
    samples at rows [i-5 .. i+4] that exist, divided by ten. *)
Lemma correlate_kernel_nth (a : list Q) (i : nat) :
  (10 <= List.length a)%nat -> (i < List.length a)%nat ->
  nth i (correlate_same a (rev (np_ones_div 10 10))) 0
  == zero_padded_moving_average a i.
Proof.
  intros Hlen Hi. unfold correlate_same, zero_padded_moving_average.
  rewrite kernel_length. change (10 / 2)%nat with 5%nat.
  change (10 - 5 - 1)%nat with 4%nat. change (10 - 5)%nat with 5%nat.
  rewrite window_positions_seq.
  destruct (Nat.lt_ge_cases i 5) as [Hleft | Hmid].
  - rewrite app_nth1 by (rewrite length_map, length_seq; lia).
    rewrite nth_map_seq by lia. rewrite dot_kernel by lia.
    replace (i - 5)%nat with 0%nat by lia.
    replace (Nat.min (List.length a) (i + 5) - 0)%nat with (5 + i)%nat by lia.
    reflexivity.
  - rewrite app_nth2 by (rewrite length_map, length_seq; lia).
    rewrite length_map, length_seq.
    destruct (Nat.lt_ge_cases (i - 5) (List.length a - 10 + 1)) as [Hin | Hright].
    + rewrite app_nth1 by (rewrite length_map, length_seq; lia).
      rewrite nth_map_seq by lia. rewrite dot_kernel by lia.
      replace (Nat.min (List.length a) (i + 5) - (i - 5))%nat with 10%nat by lia.
      reflexivity.
    + rewrite app_nth2 by (rewrite length_map, length_seq; lia).
      rewrite length_map, length_seq.
      rewrite nth_map_seq by lia. rewrite dot_kernel by lia.
      replace (List.length a - 10 + 1 + (i - 5 - (List.length a - 10 + 1)))%nat
        with (i - 5)%nat by lia.
      replace (Nat.min (List.length a) (i + 5) - (i - 5))%nat
        with (10 - 1 - (i - 5 - (List.length a - 10 + 1)))%nat by lia.
      reflexivity.
Qed.

End ConvolveFacts.

Section PipelineFacts.

Import Chart.
Open Scope Q_scope.

Variable image : Type.
Variable height : image -> nat.
Variable cv2_edges : image -> list (list Z).

(** The edge map has one row per image row. *)
Hypothesis cv2_edges_rows : forall img, List.length (cv2_edges img) = height img.

Lemma hist_length (img : image) :
  List.length (map inject_Z (np_sum_rows (cv2_edges img))) = height img.
Proof using cv2_edges_rows.
  unfold np_sum_rows. rewrite !length_map. apply cv2_edges_rows.
Qed.

(** The whole of [detect_peaks_troughs] on an image with at least one
    row: the smoothing succeeds and the result is that of the loop on the
    smoothed profile, which never raises. *)
Lemma detect_peaks_troughs_runs (img : image) :
  (1 <= height img)%nat ->
  exists profile peaks troughs,
    smoothed_profile image cv2_edges img = Py.Ok profile /\
    find_extrema profile = Py.Ok (peaks, troughs) /\
    detect_peaks_troughs image cv2_edges img = Py.Ok (peaks, troughs).
Proof using cv2_edges_rows.
  intros Hh.
  destruct (np_convolve_same_shape
              (map inject_Z (np_sum_rows (cv2_edges img))) (np_ones_div 10 10))
    as (out & Hout & _ & _).
  - rewrite hist_length. exact Hh.
  - simpl. lia.
  - apply np_sum_rows_nonneg.
  - apply np_ones_div_nonneg.
  - exists out. eexists _, _. unfold detect_peaks_troughs, smoothed_profile.
    cbv zeta. rewrite Hout. cbn [Py.bind].
    split; [reflexivity |]. split; apply find_extrema_eq.
Qed.

(** C4, amended: for an image of height H >= 1 the profile is computed
    without error, has length max(H, 10), hence exactly H as soon as
    H >= 10, and all its elements are non-negative. *)
Theorem smoothed_profile_length (img : image) (Hh : (1 <= height img)%nat) :
  exists profile,
    smoothed_profile image cv2_edges img = Py.Ok profile /\
    List.length profile = Nat.max (height img) 10 /\
    ((10 <= height img)%nat -> List.length profile = height img) /\
    List.Forall (fun x => 0 <= x) profile.
Proof using cv2_edges_rows.
  unfold smoothed_profile. cbv zeta.
  destruct (np_convolve_same_shape
              (map inject_Z (np_sum_rows (cv2_edges img))) (np_ones_div 10 10))
    as (out & Hout & Hlen & Hpos).
  - rewrite hist_length. exact Hh.
  - simpl. lia.
  - apply np_sum_rows_nonneg.
  - apply np_ones_div_nonneg.
  - exists out. rewrite hist_length in Hlen.
    change (List.length (np_ones_div 10 10)) with 10%nat in Hlen.
    split; [exact Hout |]. split; [exact Hlen |]. split; [lia | exact Hpos].
Qed.

(** C5, amended: for an image of height H >= 10, row i of the profile is
    the sum of the raw samples at the rows i-5 .. i+4 that exist, divided
    by the fixed window size 10: the missing samples of a boundary window
    count as zero. On the rows whose window is complete this is the mean
    of the ten samples. *)
Theorem smoothed_profile_zero_padded (img : image) (H10 : (10 <= height img)%nat) :
  let hist := map inject_Z (np_sum_rows (cv2_edges img)) in
  exists profile,
    smoothed_profile image cv2_edges img = Py.Ok profile /\
    List.length profile = height img /\
    (forall i, (i < height img)%nat ->
       nth i profile 0 == zero_padded_moving_average hist i) /\
    (forall i, (5 <= i)%nat -> (i + 5 <= height img)%nat ->
       nth i profile 0 == truncated_moving_average hist i).
Proof using cv2_edges_rows.
  intros hist. pose proof (hist_length img) as Hlen. fold hist in Hlen.
  unfold smoothed_profile. cbv zeta. fold hist. unfold np_convolve_same.
  change (List.length (np_ones_div 10 10)) with 10%nat.
  destruct (Nat.ltb_spec (List.length hist) 10) as [? | _]; [lia |].
  destruct (Nat.eqb_spec (List.length hist) 0) as [? | _]; [lia |].
  simpl (10 =? 0)%nat. cbv iota.
  eexists. split; [reflexivity |]. split; [| split].
  - rewrite correlate_same_length by (rewrite kernel_length; lia). exact Hlen.
  - intros i Hi. apply correlate_kernel_nth; lia.
  - intros i Hlo Hhi. rewrite correlate_kernel_nth by lia.
    unfold zero_padded_moving_average, truncated_moving_average.
    rewrite window_positions_seq, length_seq.
    replace (Nat.min (List.length hist) (i + 5) - (i - 5))%nat with 10%nat by lia.
    reflexivity.
Qed.

End PipelineFacts.

Section PipelineRuns.

Import Chart Samples.
Open Scope Q_scope.

(** C4, as worded, fails below ten rows: an image of height 3 gets a
    profile of length 10. *)
Lemma short_image_profile_length :
  exists profile,
    smoothed_profile edge_image edge_image_edges short_image = Py.Ok profile /\
    edge_image_height short_image = 3%nat /\
    List.length profile = 10%nat /\
    List.length profile <> edge_image_height short_image.
Proof.
  eexists. split; [vm_compute; reflexivity |].
  split; [reflexivity |]. split; [reflexivity |]. discriminate.
Qed.

(** C5, as worded, fails on the boundary rows: on twelve rows of equal
    density 255 the first profile row is 255/2, while the mean of the
    five samples of its truncated window is 255. *)
Lemma flat_image_boundary_row :
  exists profile,
    smoothed_profile edge_image edge_image_edges flat_image = Py.Ok profile /\
    nth 0 profile 0 == 255 / 2 /\
    truncated_moving_average
      (map inject_Z (np_sum_rows (edge_image_edges flat_image))) 0 == 255 /\
    ~ nth 0 profile 0 ==
      truncated_moving_average
        (map inject_Z (np_sum_rows (edge_image_edges flat_image))) 0.
Proof.
  eexists. split; [vm_compute; reflexivity |].
  split; [vm_compute; reflexivity |]. split; [vm_compute; reflexivity |].
  vm_compute. discriminate.
Qed.

Lemma smoothed_profile_length_witness :
  exists profile,
    smoothed_profile edge_image edge_image_edges flat_image = Py.Ok profile /\
    List.length profile = 12%nat.
Proof.
  destruct (smoothed_profile_length edge_image edge_image_height edge_image_edges
              (fun img => eq_refl) flat_image) as (profile & Hp & Hlen & _).
  - vm_compute. lia.
  - exists profile. split; [exact Hp | exact Hlen].
Defined.

Lemma smoothed_profile_zero_padded_witness :
  exists profile,
    smoothed_profile edge_image edge_image_edges flat_image = Py.Ok profile /\
    nth 0 profile 0
    == zero_padded_moving_average
         (map inject_Z (np_sum_rows (edge_image_edges flat_image))) 0.
Proof.
  destruct (smoothed_profile_zero_padded edge_image edge_image_height edge_image_edges
              (fun img => eq_refl) flat_image) as (profile & Hp & _ & Hrow & _).
  - vm_compute. lia.
  - exists profile. split; [exact Hp |]. apply Hrow. vm_compute. lia.
Defined.

End PipelineRuns.

Section Runs.

Import Chart Http Samples.

Lemma find_extrema_sound_witness :
  exists peaks troughs,
    find_extrema zigzag_profile = Py.Ok (peaks, troughs) /\
    (forall i, In i peaks -> peak_at zigzag_profile i) /\
    (forall i, In i troughs -> trough_at zigzag_profile i).
Proof.
  destruct (find_extrema_sound zigzag_profile) as (peaks & troughs & Hrun & Hpk & Htr & _).
  - simpl. lia.
  - exists peaks, troughs. split; [exact Hrun |]. split; assumption.
Defined.

(** The loop on the sample profile. *)
Example find_extrema_zigzag :
  find_extrema zigzag_profile = Py.Ok ([1%Z; 7%Z], [4%Z]).
Proof. vm_compute. reflexivity. Qed.

Lemma get_top_movers_overlap_witness :
  exists coin,
    In coin (fst (get_top_movers (fun _ => Py.Ok three_coins_reply))) /\
    In coin (snd (get_top_movers (fun _ => Py.Ok three_coins_reply))).
Proof.
  pose proof (get_top_movers_overlap (fun _ => Py.Ok three_coins_reply)
                three_coins_reply three_coins three_tuples
                eq_refl eq_refl ltac:(vm_compute; reflexivity)) as H.
  destruct (get_top_movers (fun _ => Py.Ok three_coins_reply)) as [gainers losers].
  destruct H as [Hoverlap _]. apply Hoverlap. simpl. lia.
Defined.

(** With three records every coin is both a gainer and a loser. *)
Example get_top_movers_three :
  get_top_movers (fun _ => Py.Ok three_coins_reply) = (three_tuples, three_tuples).
Proof. vm_compute. reflexivity. Qed.

End Runs.

(* ===================================================================== *)
(** * Part III: further properties of the code                            *)
(* ===================================================================== *)

Section DecisionMore.

Import Decision.
Open Scope string_scope.
Open Scope Z_scope.

Ltac decide_rules rsi macd bollinger :=
  unfold mentor_decision, Bullish, Bearish, NearUpperBand, NearLowerBand;
  destruct (String.eqb_spec macd "Bullish");
  destruct (String.eqb_spec macd "Bearish");
  destruct (String.eqb_spec bollinger "Price near Upper Band");
  destruct (String.eqb_spec bollinger "Price near Lower Band");
  destruct (Z.ltb_spec rsi 30); destruct (Z.gtb_spec rsi 70);
  cbn [andb fst snd].

(** X1: the signal as a function of the state. Long is returned exactly
    when MACD is bullish and RSI is below 30 or the price is near the
    lower band; Short exactly when MACD is bearish and RSI is above 70 or
    the price is near the upper band. *)
Theorem mentor_decision_signal_iff (rsi : Z) (macd bollinger : string) :
  let s := fst (mentor_decision rsi macd bollinger) in
  (s = LONG <-> macd = Bullish /\ (rsi < 30 \/ bollinger = NearLowerBand)) /\
  (s = SHORT <-> macd = Bearish /\ (rsi > 70 \/ bollinger = NearUpperBand)).
Proof.
  cbv zeta. decide_rules rsi macd bollinger; subst;
    (split; (split; [intros E | intros [E1 [E2 | E2]]]));
    try discriminate; try congruence; try lia; auto;
    split; try reflexivity; left; lia.
Qed.

(** X2: for an RSI between 30 and 70 the recommendation, signal and
    explanation, does not depend on the RSI. *)
Theorem mentor_decision_neutral_rsi (rsi rsi' : Z) (macd bollinger : string)
    (Hrsi : 30 <= rsi <= 70) (Hrsi' : 30 <= rsi' <= 70) :
  mentor_decision rsi macd bollinger = mentor_decision rsi' macd bollinger.
Proof.
  unfold mentor_decision.
  destruct (Z.ltb_spec rsi 30); [lia |]. destruct (Z.gtb_spec rsi 70); [lia |].
  destruct (Z.ltb_spec rsi' 30); [lia |]. destruct (Z.gtb_spec rsi' 70); [lia |].
  reflexivity.
Qed.

(** X3: a lower RSI never withdraws a Long and a higher RSI never
    withdraws a Short. *)
Theorem mentor_decision_monotone (rsi rsi' : Z) (macd bollinger : string)
    (Hle : rsi' <= rsi) :
  (fst (mentor_decision rsi macd bollinger) = LONG ->
   fst (mentor_decision rsi' macd bollinger) = LONG) /\
  (fst (mentor_decision rsi' macd bollinger) = SHORT ->
   fst (mentor_decision rsi macd bollinger) = SHORT).
Proof.
  unfold mentor_decision.
  destruct (String.eqb macd "Bullish"); destruct (String.eqb macd "Bearish");
    destruct (String.eqb bollinger "Price near Upper Band");
    destruct (String.eqb bollinger "Price near Lower Band");
    destruct (Z.ltb_spec rsi 30); destruct (Z.gtb_spec rsi 70);
    destruct (Z.ltb_spec rsi' 30); destruct (Z.gtb_spec rsi' 70);
    cbn [andb fst]; split; intros E; try discriminate; try reflexivity; lia.
Qed.

(** X4: first match wins. The RSI rules take precedence over the band
    rules: the explanation of a band rule is given only when the RSI rule
    of the same direction does not apply. *)
Theorem mentor_decision_rule_priority (rsi : Z) (macd bollinger : string) :
  let e := snd (mentor_decision rsi macd bollinger) in
  (e = "Strong upside signal based on RSI < 30 and bullish MACD."
     <-> rsi < 30 /\ macd = Bullish) /\
  (e = "RSI > 70 with bearish MACD suggests downside."
     <-> rsi > 70 /\ macd = Bearish) /\
  (e = "Near upper Bollinger Band with bearish MACD."
     <-> rsi <= 70 /\ macd = Bearish /\ bollinger = NearUpperBand) /\
  (e = "Near lower Bollinger Band with bullish MACD."
     <-> 30 <= rsi /\ macd = Bullish /\ bollinger = NearLowerBand).
Proof.
  cbv zeta. decide_rules rsi macd bollinger; subst;
    repeat split; intros; try discriminate; try congruence; try lia;
    repeat match goal with
           | H : _ /\ _ |- _ => destruct H
           end; try discriminate; try congruence; try lia.
Qed.

End DecisionMore.

Lemma mentor_decision_neutral_rsi_witness :
  Decision.mentor_decision 30 "Bearish" "Price near Upper Band"
  = Decision.mentor_decision 70 "Bearish" "Price near Upper Band".
Proof.
  apply (mentor_decision_neutral_rsi 30 70); lia.
Defined.

Lemma mentor_decision_monotone_witness :
  (10 <= 29)%Z /\
  fst (Decision.mentor_decision 10 "Bullish" "Price near Upper Band") = Decision.LONG.
Proof.
  split; [lia |].
  apply (proj1 (mentor_decision_monotone 29 10 "Bullish" "Price near Upper Band"
                  ltac:(lia))).
  reflexivity.
Defined.

Section IndicatorMore.

Import Decision Indicators.
Open Scope string_scope.
Open Scope Z_scope.

(** X5: every state with RSI in [20, 80] is produced by some sequence of
    draws: the scripted generator fed with three suitable draws yields
    it, consuming exactly these three draws. *)
Theorem mock_indicators_reaches (rsi : Z) (macd bollinger : string)
    (Hrsi : 20 <= rsi <= 80)
    (Hmacd : macd = Bullish \/ macd = Bearish)
    (Hboll : bollinger = NearUpperBand \/ bollinger = NearLowerBand) :
  exists d1 d2 d3,
    mock_indicators (list Z) Scripted.randbelow [d1; d2; d3]
    = Py.Ok (mk_indicators rsi macd bollinger, []).
Proof.
  exists (rsi - 20), (if String.eqb macd Bullish then 0 else 1),
         (if String.eqb bollinger NearUpperBand then 0 else 1).
  unfold mock_indicators, randint, randrange.
  change (80 + 1 - 20) with 61. change (61 >? 0) with true.
  unfold mbind, draw, ret. cbv beta iota. cbn [Scripted.randbelow].
  rewrite Z.mod_small by lia. replace (20 + (rsi - 20)) with rsi by lia.
  destruct Hmacd as [-> | ->]; destruct Hboll as [-> | ->]; reflexivity.
Qed.

End IndicatorMore.

Lemma mock_indicators_reaches_witness :
  exists d1 d2 d3,
    Indicators.mock_indicators (list Z) Scripted.randbelow [d1; d2; d3]
    = Py.Ok (Indicators.mk_indicators 50 "Bullish" "Price near Upper Band", []).
Proof.
  apply (mock_indicators_reaches 50 "Bullish" "Price near Upper Band");
    [lia | left; reflexivity | left; reflexivity].
Defined.

Section MoversMore.

Import Http.
Open Scope string_scope.

Lemma for_each_raise {A B : Type} (f : A -> Py.result B) (l : list A) (x : A) (e : Py.exn) :
  In x l -> f x = Py.Raise e -> exists e', Py.for_each f l = Py.Raise e'.
Proof.
  induction l as [| y l IH]; intros Hin Hx; [destruct Hin |].
  simpl. destruct Hin as [-> | Hin].
  - rewrite Hx. simpl. eauto.
  - destruct (f y) as [b | e1]; simpl; [| eauto].
    destruct (IH Hin Hx) as [e' ->]. simpl. eauto.
Qed.

Lemma first5_length {A : Type} (l : list A) :
  List.length (first5 l) = Nat.min 5 (List.length l).
Proof. unfold first5. apply length_firstn. Qed.

Lemma last5_length {A : Type} (l : list A) :
  List.length (last5 l) = Nat.min 5 (List.length l).
Proof. unfold last5. rewrite length_skipn. lia. Qed.

(** X6: every failure of the movers fetch yields the pair of empty
    lists: a request that raises, a body that is not JSON, a JSON body
    that is not a list, and a list in which one of the first five or last
    five records is not a dict with the three fields. One bad record
    discards both lists. *)
Theorem get_top_movers_failure (requests_get : string -> Py.result response) :
  let result := get_top_movers requests_get in
  let reply := requests_get movers_url in
  (forall e, reply = Py.Raise e -> result = ([], [])) /\
  (forall r e, reply = Py.Ok r -> response_json r = Py.Raise e ->
     result = ([], [])) /\
  (forall r data, reply = Py.Ok r -> response_json r = Py.Ok data ->
     (forall l, data <> JArr l) -> result = ([], [])) /\
  (forall r l coin e, reply = Py.Ok r -> response_json r = Py.Ok (JArr l) ->
     In coin (first5 l) \/ In coin (last5 l) -> mover_tuple coin = Py.Raise e ->
     result = ([], [])).
Proof.
  unfold get_top_movers. cbv zeta. split; [| split; [| split]].
  - intros e ->. reflexivity.
  - intros r e -> Hj. cbn [Py.bind]. rewrite Hj. reflexivity.
  - intros r data -> Hj Hnot. cbn [Py.bind]. rewrite Hj. cbn [Py.bind].
    destruct data as [| b | q | s | l | m]; try reflexivity.
    + cbn [iter_slice Py.bind].
      destruct (Py.for_each mover_tuple
                  (map (fun c => JStr (String c EmptyString))
                       (first5 (list_ascii_of_string s)))) as [g | e] eqn:Eg;
        [| reflexivity].
      cbn [Py.bind].
      destruct (Py.for_each mover_tuple
                  (map (fun c => JStr (String c EmptyString))
                       (last5 (list_ascii_of_string s)))) as [t | e] eqn:Et;
        [| reflexivity].
      cbn [Py.bind Py.try_except].
      assert (forall cs ys,
                Py.for_each mover_tuple
                  (map (fun c => JStr (String c EmptyString)) cs) = Py.Ok ys ->
                ys = []) as Hnil.
      { intros [| c cs] ys H; simpl in H; [injection H as <-; reflexivity |].
        discriminate. }
      rewrite (Hnil _ _ Eg), (Hnil _ _ Et). reflexivity.
    + exfalso. apply (Hnot l). reflexivity.
  - intros r l coin e -> Hj Hin Hbad. cbn [Py.bind]. rewrite Hj.
    cbn [Py.bind iter_slice].
    destruct Hin as [Hin | Hin].
    + destruct (for_each_raise mover_tuple _ coin e Hin Hbad) as [e' ->].
      reflexivity.
    + destruct (Py.for_each mover_tuple (first5 l)) as [g | e1]; [| reflexivity].
      cbn [Py.bind].
      destruct (for_each_raise mover_tuple _ coin e Hin Hbad) as [e' ->].
      reflexivity.
Qed.

(** X7: only the first five and the last five records are read. When
    they are well formed the result is their tuples, whatever stands
    between them. *)
Theorem get_top_movers_ignores_middle (requests_get : string -> Py.result response)
    (r : response) (head middle tail : list json)
    (gainers losers : list (json * json * json))
    (Hget : requests_get movers_url = Py.Ok r)
    (Hjson : response_json r = Py.Ok (JArr (head ++ middle ++ tail)))
    (Hhead : List.length head = 5%nat) (Htail : List.length tail = 5%nat)
    (Hg : Py.for_each mover_tuple head = Py.Ok gainers)
    (Hl : Py.for_each mover_tuple tail = Py.Ok losers) :
  get_top_movers requests_get = (gainers, losers).
Proof.
  unfold get_top_movers. cbv zeta. rewrite Hget. cbn [Py.bind].
  rewrite Hjson. cbn [Py.bind iter_slice].
  assert (first5 (head ++ middle ++ tail) = head) as ->.
  { unfold first5. rewrite firstn_app, Hhead. simpl.
    rewrite <- Hhead, firstn_all. apply app_nil_r. }
  assert (last5 (head ++ middle ++ tail) = tail) as ->.
  { unfold last5. rewrite app_assoc, skipn_app.
    rewrite !length_app, Htail.
    replace (List.length head + List.length middle + 5 - 5
             - (List.length head + List.length middle))%nat with 0%nat by lia.
    rewrite skipn_all2 by (rewrite length_app; lia). reflexivity. }
  rewrite Hg. cbn [Py.bind]. rewrite Hl. reflexivity.
Qed.

(** X8: whatever the reply, the two lists returned have the same length,
    at most five. *)
Theorem get_top_movers_lengths (requests_get : string -> Py.result response) :
  let '(top_gainers, top_losers) := get_top_movers requests_get in
  List.length top_gainers = List.length top_losers /\
  (List.length top_gainers <= 5)%nat.
Proof.
  unfold get_top_movers. cbv zeta.
  destruct (requests_get movers_url) as [r | e]; [| simpl; lia].
  cbn [Py.bind]. destruct (response_json r) as [data | e]; [| simpl; lia].
  cbn [Py.bind].
  destruct data as [| b | q | s | l | m]; try (simpl; lia); cbn [iter_slice Py.bind].
  - destruct (Py.for_each _ _) as [g | e] eqn:Eg; [| simpl; lia]. cbn [Py.bind].
    destruct (Py.for_each _ (map _ (last5 _))) as [t | e] eqn:Et; [| simpl; lia].
    cbn [Py.bind Py.try_except].
    apply for_each_length in Eg, Et.
    rewrite length_map, first5_length in Eg. rewrite length_map, last5_length in Et.
    lia.
  - destruct (Py.for_each _ (first5 l)) as [g | e] eqn:Eg; [| simpl; lia].
    cbn [Py.bind].
    destruct (Py.for_each _ (last5 l)) as [t | e] eqn:Et; [| simpl; lia].
    cbn [Py.bind Py.try_except].
    apply for_each_length in Eg, Et.
    rewrite first5_length in Eg. rewrite last5_length in Et. lia.
Qed.

(** X9: the shape of a successful result on n records. Both lists have
    min(5, n) entries; with at most five records both are the whole
    listing; with at least ten the listing is the gainers, then n - 10
    records left out, then the losers. *)
Theorem get_top_movers_shape (requests_get : string -> Py.result response)
    (r : response) (data : list json) (tuples : list (json * json * json))
    (Hget : requests_get movers_url = Py.Ok r)
    (Hjson : response_json r = Py.Ok (JArr data))
    (Htuples : Py.for_each mover_tuple data = Py.Ok tuples) :
  let '(top_gainers, top_losers) := get_top_movers requests_get in
  List.length top_gainers = Nat.min 5 (List.length data) /\
  List.length top_losers = Nat.min 5 (List.length data) /\
  ((List.length data <= 5)%nat -> top_gainers = tuples /\ top_losers = tuples) /\
  ((10 <= List.length data)%nat ->
     exists middle, List.length middle = (List.length data - 10)%nat /\
                    tuples = (top_gainers ++ middle ++ top_losers)%list).
Proof.
  rewrite (get_top_movers_success _ _ _ _ Hget Hjson Htuples).
  pose proof (for_each_length _ _ _ Htuples) as Hlen.
  rewrite first5_length, last5_length, Hlen.
  split; [reflexivity |]. split; [reflexivity |]. split.
  - intros Hn. unfold first5, last5. split.
    + apply firstn_all2. lia.
    + replace (List.length tuples - 5)%nat with 0%nat by lia. reflexivity.
  - intros Hn. unfold first5, last5.
    exists (firstn (List.length tuples - 10) (skipn 5 tuples)). split.
    + rewrite length_firstn, length_skipn. lia.
    + rewrite <- (firstn_skipn 5 tuples) at 1. f_equal.
      rewrite <- (firstn_skipn (List.length tuples - 10) (skipn 5 tuples)) at 1.
      f_equal. rewrite skipn_skipn. f_equal. lia.
Qed.

End MoversMore.

Section MoversRuns.

Import Http Samples MoreSamples.

Lemma get_top_movers_ignores_middle_witness :
  get_top_movers (fun _ => Py.Ok eleven_reply) = (head_tuples, tail_tuples).
Proof.
  apply (get_top_movers_ignores_middle (fun _ => Py.Ok eleven_reply) eleven_reply
           head_coins [JNull] tail_coins head_tuples tail_tuples);
    try reflexivity; vm_compute; reflexivity.
Defined.

Lemma get_top_movers_shape_witness :
  List.length (fst (get_top_movers (fun _ => Py.Ok three_coins_reply))) = 3%nat.
Proof.
  pose proof (get_top_movers_shape (fun _ => Py.Ok three_coins_reply)
                three_coins_reply three_coins three_tuples
                eq_refl eq_refl ltac:(vm_compute; reflexivity)) as H.
  destruct (get_top_movers (fun _ => Py.Ok three_coins_reply)) as [gainers losers].
  destruct H as [Hlen _]. exact Hlen.
Defined.

End MoversRuns.

Section PriceSection.

Import Http Display.
Open Scope string_scope.

Lemma get_price_success (requests_get : string -> Py.result response)
    (coin_id : string) (r : response) (data entry p : json) :
  requests_get (price_url coin_id) = Py.Ok r ->
  response_json r = Py.Ok data ->
  getitem data coin_id = Py.Ok entry ->
  getitem entry "usdt" = Py.Ok p ->
  get_price requests_get coin_id = p.
Proof.
  intros H1 H2 H3 H4. unfold get_price. cbv zeta.
  rewrite H1. cbn [Py.bind]. rewrite H2. cbn [Py.bind].
  rewrite H3. cbn [Py.bind]. rewrite H4. reflexivity.
Qed.

(** X10: a price that was fetched but is zero is shown with the warning
    of a failed fetch, because the main loop tests the truth value of
    the price. *)
Theorem price_section_zero_price (requests_get : string -> Py.result response)
    (coin_id : string) (r : response) (data entry : json) (q : Q)
    (Hget : requests_get (price_url coin_id) = Py.Ok r)
    (Hjson : response_json r = Py.Ok data)
    (Hentry : getitem data coin_id = Py.Ok entry)
    (Hprice : getitem entry "usdt" = Py.Ok (JNum q))
    (Hzero : (q == 0)%Q) :
  price_section requests_get coin_id
  = Py.Ok (Warning "Could not fetch price data for this coin.").
Proof.
  unfold price_section. cbv zeta.
  rewrite (get_price_success _ _ _ _ _ _ Hget Hjson Hentry Hprice).
  unfold show_price, truthy.
  apply Qeq_bool_iff in Hzero. rewrite Hzero. reflexivity.
Qed.


End PriceSection.

Section PriceRuns.

Import Http Display MoreSamples.
Open Scope string_scope.

Lemma price_section_zero_price_witness :
  price_section (fun _ => Py.Ok zero_price_reply) "bitcoin"
  = Py.Ok (Warning "Could not fetch price data for this coin.").
Proof.
  assert (getitem zero_price_body "bitcoin" = Py.Ok zero_price_entry) as Hentry
    by (vm_compute; reflexivity).
  assert (getitem zero_price_entry "usdt" = Py.Ok (JNum 0)) as Hprice
    by (vm_compute; reflexivity).
  apply (price_section_zero_price (fun _ => Py.Ok zero_price_reply) "bitcoin"
           zero_price_reply zero_price_body zero_price_entry 0
           eq_refl eq_refl Hentry Hprice).
  reflexivity.
Defined.


End PriceRuns.

Section ExtremaMore.

Import Chart.
Open Scope Z_scope.

Lemma peak_not_trough (P : list Q) (i : Z) :
  peakb P i = true -> troughb P i = false.
Proof.
  unfold peakb, troughb, Qgtb. intros H. apply andb_prop in H as [Ha _].
  apply Qltb_lt in Ha.
  rewrite (Qltb_false (at_row P i) (at_row P (i - 1))) by lra. reflexivity.
Qed.

Lemma peak_at_peakb (P : list Q) (i : Z) :
  1 <= i -> i + 1 < Z.of_nat (List.length P) -> peak_at P i -> peakb P i = true.
Proof.
  intros H1 H2 (a & b & c & Ha & Hb & Hc & Hab & Hcb).
  rewrite getitem_at_row in Ha, Hb, Hc by lia.
  injection Ha as <-. injection Hb as <-. injection Hc as <-.
  unfold peakb, Qgtb. apply andb_true_intro. split; apply Qltb_lt; assumption.
Qed.

Lemma trough_at_troughb (P : list Q) (i : Z) :
  1 <= i -> i + 1 < Z.of_nat (List.length P) -> trough_at P i -> troughb P i = true.
Proof.
  intros H1 H2 (a & b & c & Ha & Hb & Hc & Hba & Hbc).
  rewrite getitem_at_row in Ha, Hb, Hc by lia.
  injection Ha as <-. injection Hb as <-. injection Hc as <-.
  unfold troughb, Qgtb. apply andb_true_intro. split; apply Qltb_lt; assumption.
Qed.

(** X12: the loop misses nothing. Every row from 1 to H-2 that is
    strictly above both neighbours is reported as a peak, and every such
    row strictly below both neighbours as a trough. *)
Theorem find_extrema_complete (P : list Q) :
  exists peaks troughs,
    find_extrema P = Py.Ok (peaks, troughs) /\
    (forall i, 1 <= i <= Z.of_nat (List.length P) - 2 -> peak_at P i -> In i peaks) /\
    (forall i, 1 <= i <= Z.of_nat (List.length P) - 2 -> trough_at P i -> In i troughs).
Proof.
  eexists _, _. split; [apply find_extrema_eq |]. split.
  - intros i Hi Hp. apply filter_In. split; [apply In_range; lia |].
    apply peak_at_peakb; [lia | lia | exact Hp].
  - intros i Hi Ht. apply filter_In. split; [apply In_range; lia |].
    pose proof (trough_at_troughb P i ltac:(lia) ltac:(lia) Ht) as Hb.
    rewrite Hb. destruct (peakb P i) eqn:Ep; [| reflexivity].
    apply peak_not_trough in Ep. congruence.
Qed.

(** X13: two neighbouring rows are never both peaks, nor both troughs. *)
Theorem find_extrema_not_adjacent (P : list Q) :
  exists peaks troughs,
    find_extrema P = Py.Ok (peaks, troughs) /\
    (forall i, In i peaks -> ~ In (i + 1) peaks) /\
    (forall i, In i troughs -> ~ In (i + 1) troughs).
Proof.
  eexists _, _. split; [apply find_extrema_eq |]. split.
  - intros i Hi Hn. apply filter_In in Hi as [_ Hi]. apply filter_In in Hn as [_ Hn].
    unfold peakb, Qgtb in Hi, Hn.
    replace (i + 1 - 1) with i in Hn by lia.
    apply andb_prop in Hi as [_ Hi]. apply andb_prop in Hn as [Hn _].
    apply Qltb_lt in Hi, Hn. lra.
  - intros i Hi Hn. apply filter_In in Hi as [_ Hi]. apply filter_In in Hn as [_ Hn].
    apply andb_prop in Hi as [_ Hi]. apply andb_prop in Hn as [_ Hn].
    unfold troughb, Qgtb in Hi, Hn.
    replace (i + 1 - 1) with i in Hn by lia.
    apply andb_prop in Hi as [_ Hi]. apply andb_prop in Hn as [Hn _].
    apply Qltb_lt in Hi, Hn. lra.
Qed.

Lemma filter_pair_length {A : Type} (f g : A -> bool) (l : list A) :
  (List.length (List.filter f l)
   + List.length (List.filter (fun x => negb (f x) && g x) l)
   <= List.length l)%nat.
Proof.
  induction l as [| x l IH]; simpl; [lia |].
  destruct (f x); simpl; [lia |]. destruct (g x); simpl; lia.
Qed.

(** X14: at most H - 2 rows are reported in all; in particular a profile
    of fewer than three rows has no peak and no trough. *)
Theorem find_extrema_count (P : list Q) :
  exists peaks troughs,
    find_extrema P = Py.Ok (peaks, troughs) /\
    (List.length peaks + List.length troughs <= List.length P - 2)%nat.
Proof.
  eexists _, _. split; [apply find_extrema_eq |].
  etransitivity; [apply filter_pair_length |].
  unfold Py.range. rewrite length_map, length_seq. lia.
Qed.

Lemma at_row_opp (P : list Q) (i : Z) :
  at_row (map Qopp P) i = Qopp (at_row P i).
Proof. unfold at_row. apply (map_nth Qopp P 0%Q). Qed.

Lemma Qltb_opp (x y : Q) : Qltb (Qopp x) (Qopp y) = Qltb y x.
Proof.
  destruct (Qltb y x) eqn:E.
  - apply Qltb_lt. apply Qltb_lt in E. lra.
  - apply Qltb_false. intros H.
    assert (y < x)%Q as Hyx by lra. apply Qltb_lt in Hyx. congruence.
Qed.

(** X15: turning the profile upside down exchanges the two lists: the
    peaks of the negated profile are the troughs of the profile and its
    troughs are the peaks. *)
Theorem find_extrema_negate (P : list Q) :
  exists peaks troughs,
    find_extrema P = Py.Ok (peaks, troughs) /\
    find_extrema (map Qopp P) = Py.Ok (troughs, peaks).
Proof.
  eexists _, _. split; [apply find_extrema_eq |].
  rewrite find_extrema_eq. cbv zeta. rewrite length_map.
  assert (forall i, peakb (map Qopp P) i = troughb P i) as Hpt.
  { intros i. unfold peakb, troughb, Qgtb. rewrite !at_row_opp, !Qltb_opp. reflexivity. }
  assert (forall i, troughb (map Qopp P) i = peakb P i) as Htp.
  { intros i. unfold peakb, troughb, Qgtb. rewrite !at_row_opp, !Qltb_opp. reflexivity. }
  f_equal. f_equal.
  - apply filter_ext. intros i. rewrite Hpt.
    destruct (peakb P i) eqn:Ep; [| reflexivity].
    rewrite (peak_not_trough P i Ep). reflexivity.
  - apply filter_ext. intros i. rewrite Hpt, Htp.
    destruct (peakb P i) eqn:Ep; [| apply andb_false_r].
    rewrite (peak_not_trough P i Ep). reflexivity.
Qed.

End ExtremaMore.

Section ExtremaRescale.

Import Chart.
Open Scope Z_scope.




End ExtremaRescale.


Section ConvolveMore.

Import Chart.
Open Scope Q_scope.

Lemma nth_zero (a : list Q) (k : nat) :
  List.Forall (fun x => x == 0) a -> nth k a 0 == 0.
Proof.
  intros Ha. destruct (Nat.lt_ge_cases k (List.length a)) as [Hk | Hk].
  - rewrite List.Forall_forall in Ha. apply Ha. apply nth_In. exact Hk.
  - rewrite nth_overflow by exact Hk. reflexivity.
Qed.

Lemma Qsum_zero (l : list Q) : List.Forall (fun x => x == 0) l -> Qsum l == 0.
Proof.
  induction 1 as [| x l Hx _ IH]; simpl; [reflexivity |].
  rewrite Hx, IH. ring.
Qed.

Lemma dot_zero (a : list Q) (ia : nat) (v : list Q) (iv n : nat) :
  List.Forall (fun x => x == 0) a \/ List.Forall (fun x => x == 0) v ->
  dot a ia v iv n == 0.
Proof.
  intros Hz. rewrite dot_Qsum. apply Qsum_zero.
  apply List.Forall_forall. intros x Hx. apply in_map_iff in Hx as (k & <- & _).
  destruct Hz as [Ha | Hv].
  - rewrite (nth_zero a) by exact Ha. ring.
  - rewrite (nth_zero v) by exact Hv. ring.
Qed.

Lemma correlate_same_zero (a v : list Q) :
  List.Forall (fun x => x == 0) a \/ List.Forall (fun x => x == 0) v ->
  List.Forall (fun x => x == 0) (correlate_same a v).
Proof.
  intros Hz. unfold correlate_same.
  apply List.Forall_app; split; [| apply List.Forall_app; split];
    apply List.Forall_forall; intros x Hx; apply in_map_iff in Hx as (k & <- & _);
    apply dot_zero; exact Hz.
Qed.

Lemma Forall_rev_zero (l : list Q) :
  List.Forall (fun x => x == 0) l -> List.Forall (fun x => x == 0) (rev l).
Proof.
  intros H. apply List.Forall_forall. intros x Hx. apply in_rev in Hx.
  rewrite List.Forall_forall in H. apply H. exact Hx.
Qed.

Lemma np_convolve_same_zero (a v out : list Q) :
  List.Forall (fun x => x == 0) a ->
  np_convolve_same a v = Py.Ok out ->
  List.Forall (fun x => x == 0) out.
Proof.
  intros Ha. unfold np_convolve_same.
  destruct (List.length a <? List.length v)%nat.
  - destruct (List.length v =? 0)%nat; [discriminate |].
    destruct (List.length a =? 0)%nat; [discriminate |].
    intros H. injection H as <-. apply correlate_same_zero. right.
    apply Forall_rev_zero. exact Ha.
  - destruct (List.length a =? 0)%nat; [discriminate |].
    destruct (List.length v =? 0)%nat; [discriminate |].
    intros H. injection H as <-. apply correlate_same_zero. left. exact Ha.
Qed.

Lemma fold_add_zero (row : list Z) (acc : Z) :
  (forall x, In x row -> x = 0%Z) -> fold_left Z.add row acc = acc.
Proof.
  revert acc. induction row as [| x row IH]; intros acc H; simpl; [reflexivity |].
  rewrite (H x) by (left; reflexivity). rewrite Z.add_0_r. apply IH.
  intros y Hy. apply H. right. exact Hy.
Qed.

Lemma constant_no_extrema (P : list Q) :
  constant P -> find_extrema P = Py.Ok ([], []).
Proof.
  intros Hc. rewrite find_extrema_eq. cbv zeta. f_equal. f_equal.
  - apply filter_none. intros i Hi. apply In_range in Hi.
    apply (monotone_no_extremum P i); [lia | lia | auto].
  - apply filter_none. intros i Hi. apply In_range in Hi.
    destruct (monotone_no_extremum P i) as [_ ->]; [lia | lia | auto |].
    apply andb_false_r.
Qed.

Lemma Qsum_le_count (l : list Q) (B : Q) (m : nat) :
  0 <= B -> List.Forall (fun x => x <= B) l -> (List.length l <= m)%nat ->
  Qsum l <= inject_Z (Z.of_nat m) * B.
Proof.
  intros HB Hl. revert m. induction Hl as [| x l Hx _ IH]; intros m Hm; simpl.
  - apply Qmult_le_0_compat; [| exact HB].
    rewrite <- (Zle_Qle 0). lia.
  - destruct m as [| m]; [simpl in Hm; lia |].
    specialize (IH m ltac:(simpl in Hm; lia)).
    rewrite Nat2Z.inj_succ. unfold Z.succ. rewrite inject_Z_plus.
    change (inject_Z 1) with 1. lra.
Qed.

Lemma dot_le (a : list Q) (ia : nat) (v : list Q) (iv n : nat) (B : Q) :
  0 <= B -> (n <= 10)%nat ->
  (forall k j, nth k a 0 * nth j v 0 <= B) ->
  dot a ia v iv n <= 10 * B.
Proof.
  intros HB Hn Hprod. rewrite dot_Qsum.
  apply (Qsum_le_count _ B 10 HB).
  - apply List.Forall_forall. intros x Hx. apply in_map_iff in Hx as (k & <- & _).
    apply Hprod.
  - rewrite length_map, length_seq. exact Hn.
Qed.

Lemma correlate_same_le (a v : list Q) (B : Q) :
  0 <= B -> (List.length v <= 10)%nat ->
  (forall k j, nth k a 0 * nth j v 0 <= B) ->
  List.Forall (fun y => y <= 10 * B) (correlate_same a v).
Proof.
  intros HB Hv Hprod. unfold correlate_same.
  pose proof (Nat.div_mod_eq (List.length v) 2) as Hdiv.
  pose proof (Nat.mod_upper_bound (List.length v) 2 ltac:(lia)) as Hmod.
  apply List.Forall_app; split; [| apply List.Forall_app; split];
    apply List.Forall_forall; intros x Hx; apply in_map_iff in Hx as (k & <- & Hk);
    apply in_seq in Hk; apply dot_le; try assumption; lia.
Qed.

Lemma bounded_product (xs ws : list Q) (M : Q) (k j : nat) :
  0 <= M ->
  List.Forall (fun x => 0 <= x <= M) xs ->
  List.Forall (fun w => 0 <= w <= 1 # 10) ws ->
  nth k xs 0 * nth j ws 0 <= M * (1 # 10).
Proof.
  intros HM Hxs Hws.
  assert (0 <= nth k xs 0 <= M) as Hx.
  { destruct (Nat.lt_ge_cases k (List.length xs)) as [Hk | Hk].
    - rewrite List.Forall_forall in Hxs. apply Hxs. apply nth_In. exact Hk.
    - rewrite nth_overflow by exact Hk. split; [apply Qle_refl | exact HM]. }
  assert (0 <= nth j ws 0 <= 1 # 10) as Hw.
  { destruct (Nat.lt_ge_cases j (List.length ws)) as [Hj | Hj].
    - rewrite List.Forall_forall in Hws. apply Hws. apply nth_In. exact Hj.
    - rewrite nth_overflow by exact Hj. split; [apply Qle_refl | discriminate]. }
  apply Qmult_le_compat_nonneg; assumption.
Qed.

Lemma kernel_weights :
  List.Forall (fun w => 0 <= w <= 1 # 10) (np_ones_div 10 10) /\
  List.Forall (fun w => 0 <= w <= 1 # 10) (rev (np_ones_div 10 10)).
Proof. split; repeat constructor; discriminate. Qed.

Lemma Forall_rev_range (l : list Q) (M : Q) :
  List.Forall (fun x => 0 <= x <= M) l -> List.Forall (fun x => 0 <= x <= M) (rev l).
Proof.
  intros H. apply List.Forall_forall. intros x Hx. apply in_rev in Hx.
  rewrite List.Forall_forall in H. apply H. exact Hx.
Qed.

(** A moving average never exceeds the largest sample. *)
Lemma np_convolve_same_le (a out : list Q) (M : Q) :
  0 <= M -> List.Forall (fun x => 0 <= x <= M) a ->
  np_convolve_same a (np_ones_div 10 10) = Py.Ok out ->
  List.Forall (fun y => y <= M) out.
Proof.
  intros HM Ha. unfold np_convolve_same.
  change (List.length (np_ones_div 10 10)) with 10%nat.
  assert (forall y, y <= 10 * (M * (1 # 10)) -> y <= M) as Hten by (intros y Hy; lra).
  destruct (Nat.ltb_spec (List.length a) 10) as [Hlt | Hge].
  - destruct (List.length a =? 0)%nat;
      [destruct (List.length (np_ones_div 10 10) =? 0)%nat; discriminate |].
    change (List.length (np_ones_div 10 10) =? 0)%nat with false. cbv iota.
    intros H. injection H as <-.
    eapply List.Forall_impl; [exact Hten |].
    apply correlate_same_le; [lra | rewrite length_rev; lia |].
    intros k j. rewrite Qmult_comm.
    apply bounded_product; [exact HM | apply Forall_rev_range; exact Ha |].
    apply kernel_weights.
  - destruct (List.length a =? 0)%nat; [discriminate |].
    change (List.length (np_ones_div 10 10) =? 0)%nat with false. cbv iota.
    intros H. injection H as <-.
    eapply List.Forall_impl; [exact Hten |].
    apply correlate_same_le; [lra | simpl; lia |].
    intros k j.
    apply (bounded_product a (rev (np_ones_div 10 10)) M k j HM Ha).
    apply kernel_weights.
Qed.

End ConvolveMore.

Section PipelineMore.

Import Chart.
Open Scope Q_scope.

Variable image : Type.
Variable height : image -> nat.
Variable cv2_edges : image -> list (list Z).

Hypothesis cv2_edges_rows : forall img, List.length (cv2_edges img) = height img.

Lemma smoothed_profile_ok (img : image) :
  (1 <= height img)%nat ->
  exists profile,
    smoothed_profile image cv2_edges img = Py.Ok profile /\
    List.length profile = Nat.max (height img) 10.
Proof using cv2_edges_rows.
  intros Hh.
  destruct (np_convolve_same_shape
              (map inject_Z (np_sum_rows (cv2_edges img))) (np_ones_div 10 10))
    as (out & Hout & Hlen & _).
  - unfold np_sum_rows. rewrite !length_map, cv2_edges_rows. exact Hh.
  - simpl. lia.
  - apply np_sum_rows_nonneg.
  - apply np_ones_div_nonneg.
  - exists out. split; [exact Hout |]. rewrite Hlen.
    unfold np_sum_rows. rewrite !length_map, cv2_edges_rows. reflexivity.
Qed.

(** X17: an image whose edge map has no edge pixel (a uniformly coloured
    image) has neither peaks nor troughs, whatever its height. *)
Theorem detect_peaks_troughs_blank (img : image)
    (Hh : (1 <= height img)%nat)
    (Hblank : forall row x, In row (cv2_edges img) -> In x row -> x = 0%Z) :
  detect_peaks_troughs image cv2_edges img = Py.Ok ([], []).
Proof using cv2_edges_rows.
  destruct (smoothed_profile_ok img Hh) as (profile & Hp & _).
  unfold detect_peaks_troughs. rewrite Hp. cbn [Py.bind].
  apply constant_no_extrema.
  assert (List.Forall (fun x => x == 0) profile) as Hzero.
  { unfold smoothed_profile in Hp. cbv zeta in Hp.
    apply (np_convolve_same_zero _ _ _) in Hp; [exact Hp |].
    apply List.Forall_forall. intros x Hx. unfold np_sum_rows in Hx.
    rewrite map_map in Hx. apply in_map_iff in Hx as (row & <- & Hrow).
    rewrite fold_add_zero by (intros y Hy; apply (Hblank row y Hrow Hy)).
    reflexivity. }
  intros i j _ _. rewrite (nth_zero profile i Hzero), (nth_zero profile j Hzero).
  reflexivity.
Qed.

Lemma fold_add_bounds (row : list Z) (acc : Z) :
  (forall x, In x row -> (0 <= x <= 255)%Z) ->
  (acc <= fold_left Z.add row acc <= acc + 255 * Z.of_nat (List.length row))%Z.
Proof.
  revert acc. induction row as [| x row IH]; intros acc H.
  - simpl. lia.
  - cbn [fold_left]. specialize (IH (acc + x)%Z ltac:(intros y Hy; apply H; right; exact Hy)).
    pose proof (H x ltac:(left; reflexivity)) as Hx.
    change (List.length (x :: row)) with (S (List.length row)). lia.
Qed.

(** X18: for an edge map of width W with entries between 0 and 255,
    every value of the smoothed profile lies between 0 and 255 * W. *)
Theorem smoothed_profile_bounded (img : image) (W : nat)
    (Hh : (1 <= height img)%nat)
    (Hrows : forall row, In row (cv2_edges img) ->
               List.length row = W /\ forall x, In x row -> (0 <= x <= 255)%Z) :
  exists profile,
    smoothed_profile image cv2_edges img = Py.Ok profile /\
    List.Forall (fun y => 0 <= y <= inject_Z (255 * Z.of_nat W)) profile.
Proof using cv2_edges_rows.
  destruct (smoothed_profile_ok img Hh) as (profile & Hp & _).
  exists profile. split; [exact Hp |].
  assert (List.Forall (fun x => 0 <= x <= inject_Z (255 * Z.of_nat W))
                      (map inject_Z (np_sum_rows (cv2_edges img)))) as Hhist.
  { apply List.Forall_forall. intros x Hx. unfold np_sum_rows in Hx.
    rewrite map_map in Hx. apply in_map_iff in Hx as (row & <- & Hrow).
    destruct (Hrows row Hrow) as [Hw Hpix].
    pose proof (fold_add_bounds row 0 Hpix) as Hsum. rewrite Hw in Hsum.
    pose proof (Z.mod_pos_bound (fold_left Z.add row 0%Z) (2 ^ 64) eq_refl) as Hmod.
    pose proof (Z.mod_le (fold_left Z.add row 0%Z) (2 ^ 64) ltac:(lia) eq_refl) as Hle.
    rewrite <- (Zle_Qle 0), <- Zle_Qle. lia. }
  assert (0 <= inject_Z (255 * Z.of_nat W)) as HM
    by (rewrite <- (Zle_Qle 0); lia).
  unfold smoothed_profile in Hp. cbv zeta in Hp.
  pose proof (np_convolve_same_le _ _ _ HM Hhist Hp) as Hup.
  destruct (np_convolve_same_shape
              (map inject_Z (np_sum_rows (cv2_edges img))) (np_ones_div 10 10))
    as (out & Hout & _ & Hpos).
  - unfold np_sum_rows. rewrite !length_map, cv2_edges_rows. exact Hh.
  - simpl. lia.
  - apply np_sum_rows_nonneg.
  - apply np_ones_div_nonneg.
  - rewrite Hp in Hout. injection Hout as <-.
    apply List.Forall_forall. intros y Hy.
    rewrite List.Forall_forall in Hup, Hpos. split; [apply Hpos | apply Hup]; exact Hy.
Qed.


End PipelineMore.

Section PipelineMoreRuns.

Import Chart Samples MoreSamples.

Lemma detect_peaks_troughs_blank_witness :
  detect_peaks_troughs edge_image edge_image_edges blank_image = Py.Ok ([], []).
Proof.
  apply (detect_peaks_troughs_blank edge_image edge_image_height edge_image_edges
           (fun img => eq_refl) blank_image).
  - vm_compute. lia.
  - intros row x Hrow Hx. unfold edge_image_edges, blank_image in Hrow.
    apply repeat_spec in Hrow. subst row.
    simpl in Hx. intuition congruence.
Defined.

Lemma smoothed_profile_bounded_witness :
  exists profile,
    smoothed_profile edge_image edge_image_edges flat_image = Py.Ok profile /\
    List.Forall (fun y => (0 <= y <= 255)%Q) profile.
Proof.
  apply (smoothed_profile_bounded edge_image edge_image_height edge_image_edges
           (fun img => eq_refl) flat_image 1).
  - vm_compute. lia.
  - intros row Hrow. unfold edge_image_edges, flat_image in Hrow.
    apply repeat_spec in Hrow. subst row. split; [reflexivity |].
    intros x [<- | []]. lia.
Defined.


End PipelineMoreRuns.

Section ShortImages.

Import Chart.
Open Scope Q_scope.

Ltac flat_neighbour :=
  match goal with
  | |- Qltb ?a ?b && Qltb ?c ?d = false =>
      first [ rewrite (Qltb_false a b) by lra; reflexivity
            | rewrite (Qltb_false c d) by lra; apply andb_false_r ]
  end.

(** One length of the raw profile: the ten smoothed values are written
    out and each interior row is compared with its neighbours. *)
Ltac short_case :=
  repeat match goal with
         | H : List.Forall _ (_ :: _) |- _ => inversion H; subst; clear H
         end;
  eexists; split; [reflexivity |];
  rewrite find_extrema_eq; cbv zeta;
  f_equal; f_equal; apply filter_none; intros i Hi; apply In_range in Hi;
  change (Z.of_nat (List.length _)) with 10%Z in Hi;
  assert (i = 1 \/ i = 2 \/ i = 3 \/ i = 4 \/ i = 5 \/ i = 6 \/ i = 7 \/ i = 8)%Z
    as Hcase by lia;
  repeat (destruct Hcase as [-> | Hcase]); try subst i;
  try match goal with
      | |- negb _ && _ = false => apply andb_false_iff; right
      end;
  unfold peakb, troughb, Qgtb, at_row;
  repeat match goal with
         | |- context [Z.to_nat ?z] =>
             let n := eval vm_compute in (Z.to_nat z) in
             change (Z.to_nat z) with n
         end;
  cbn -[Qltb Qplus Qmult Qdiv];
  change (1 / 10) with (1 # 10);
  flat_neighbour.

(** Fewer than ten non-negative samples smooth to a profile that rises,
    stays level for at least two rows and falls: it has no strict
    extremum. *)
Lemma short_hist_no_extrema (hist : list Q) :
  List.Forall (fun x => 0 <= x) hist ->
  (1 <= List.length hist < 10)%nat ->
  exists out,
    np_convolve_same hist (np_ones_div 10 10) = Py.Ok out /\
    find_extrema out = Py.Ok ([], []).
Proof.
  intros Hpos Hlen.
  destruct hist as [| ? hist]; [simpl in Hlen; lia |].
  do 9 (destruct hist as [| ? hist]; [short_case |]).
  simpl in Hlen. lia.
Qed.

Variable image : Type.
Variable height : image -> nat.
Variable cv2_edges : image -> list (list Z).

Hypothesis cv2_edges_rows : forall img, List.length (cv2_edges img) = height img.

(** X20: an image of fewer than ten rows never yields a peak or a
    trough, whatever its content. *)
Theorem detect_peaks_troughs_short (img : image)
    (Hh : (1 <= height img < 10)%nat) :
  detect_peaks_troughs image cv2_edges img = Py.Ok ([], []).
Proof using cv2_edges_rows.
  destruct (short_hist_no_extrema (map inject_Z (np_sum_rows (cv2_edges img))))
    as (out & Hout & Hnone).
  - apply np_sum_rows_nonneg.
  - unfold np_sum_rows. rewrite !length_map, cv2_edges_rows. exact Hh.
  - unfold detect_peaks_troughs, smoothed_profile. cbv zeta.
    rewrite Hout. cbn [Py.bind]. exact Hnone.
Qed.

End ShortImages.

Lemma detect_peaks_troughs_short_witness :
  Chart.detect_peaks_troughs Samples.edge_image Samples.edge_image_edges
    Samples.short_image = Py.Ok ([], []).
Proof.
  apply (detect_peaks_troughs_short Samples.edge_image Samples.edge_image_height
           Samples.edge_image_edges (fun img => eq_refl) Samples.short_image).
  vm_compute. lia.
Defined.
